(** * 3D nuclei segmentation with StarDist and TrackMate: the batch script

    A shallow embedding of
    [src/TrackMate/3D_Nuclei_Segmentation_StarDist_TrackMate.py].

    The script is orchestration over the Fiji host: it opens each input
    file, sends every timepoint's z-stack through TrackMate (StarDist
    detector, overlap tracker), collects one label slice per (t, z) in
    [output_stack], reshapes it into a hyperstack and saves it, alone or
    merged onto the original channels.

    - The script's own control flow (loops, [try]/[except],
      [continue], the mutated [output_stack]) is embedded statement by
      statement in a state-and-exception monad in which state changes
      survive a raised exception, as they do in Python.
    - The TrackMate pipeline and the image reader are opaque services: the
      fields of [Host].  They may answer, return null, or raise.
    - The in-memory ImageJ operations the script calls ([Duplicator],
      [setDimensions], [IJ.createImage], [ImageStack.addSlice],
      [HyperStackConverter], [RGBStackMerge], [IJ.save]) are small total
      functions modelled from the behaviour the specification ascribes to
      them.
    - Exceptions enter where the external services are called; the
      in-memory operations are total.
    - Console output is not modelled. *)

From Stdlib Require Import ZArith List String Ascii Bool Lia QArith.
From Stdlib Require Import DecimalString.
Import ListNotations.

Open Scope string_scope.
Open Scope Z_scope.

(** ** Python helpers *)

(** [range(a, b)] on integers: [a, a+1, ..., b-1], empty when [b <= a]. *)
Definition range (a b : Z) : list Z :=
  map (fun i => a + Z.of_nat i) (seq 0 (Z.to_nat (b - a))).

(** [str(n)] / ["{}".format(n)] for an integer. *)
Definition str (n : Z) : string := NilZero.string_of_int (Z.to_int n).

(** Index of the last occurrence of [c] in [s], or [-1]: [s.rfind(c)]. *)
Fixpoint rfind_from (i : Z) (c : ascii) (s : string) : Z :=
  match s with
  | EmptyString => -1
  | String a s' =>
      let r := rfind_from (i + 1) c s' in
      if 0 <=? r then r else if Ascii.eqb a c then i else -1
  end.

Definition rfind (c : ascii) (s : string) : Z := rfind_from 0 c s.

(** [s[i]] as an option and [s[:n]]. *)
Definition char_at (s : string) (i : Z) : option ascii :=
  if i <? 0 then None else String.get (Z.to_nat i) s.

Definition prefix_to (s : string) (n : Z) : string :=
  String.substring 0 (Z.to_nat n) s.

(** [os.path.splitext(p)[0]] (posixpath): the extension starts at the last
    dot of the last path component, unless only dots precede it. *)
Definition splitext_root (p : string) : string :=
  let sepIndex := rfind "/"%char p in
  let dotIndex := rfind "."%char p in
  if sepIndex <? dotIndex then
    if existsb
         (fun i => match char_at p i with
                   | Some a => negb (Ascii.eqb a "."%char)
                   | None => false
                   end)
         (range (sepIndex + 1) dotIndex)
    then prefix_to p dotIndex
    else p
  else p.

(** ** Images *)

(** One 2D plane: [ij.process.ImageProcessor]. *)
Record ImageProcessor : Type := mkIP {
  ip_width : Z;
  ip_height : Z;
  ip_bitDepth : Z;
  ip_pixels : list Z
}.

(** [ij.ImageStack]: an ordered list of labelled planes. *)
Record ImageStack : Type := mkStack {
  st_width : Z;
  st_height : Z;
  st_slices : list (string * ImageProcessor)
}.

(** [ij.measure.Calibration]; the script only copies it. *)
Record Calibration : Type := mkCal {
  pixelWidth : Q;
  pixelHeight : Q;
  pixelDepth : Q;
  frameInterval : Q;
  cal_unit : string
}.

Definition default_calibration : Calibration :=
  mkCal 1 1 1 0 "pixel".

(** [ij.ImagePlus]: a stack in czt order with its dimensions, the current
    slice (1-based) and the calibration. *)
Record ImagePlus : Type := mkImp {
  title : string;
  imp_stack : ImageStack;
  nChannels : Z;
  nSlices : Z;
  nFrames : Z;
  currentSlice : Z;
  calibration : Calibration
}.

Definition getWidth (imp : ImagePlus) : Z := st_width (imp_stack imp).
Definition getHeight (imp : ImagePlus) : Z := st_height (imp_stack imp).
Definition getNChannels (imp : ImagePlus) : Z := nChannels imp.
Definition getNSlices (imp : ImagePlus) : Z := nSlices imp.
Definition getNFrames (imp : ImagePlus) : Z := nFrames imp.
Definition getCalibration (imp : ImagePlus) : Calibration := calibration imp.
Definition getSize (s : ImageStack) : Z := Z.of_nat (List.length (st_slices s)).


(** [ImageStack(width, height)]: an empty stack. *)
Definition ImageStack_new (width height : Z) : ImageStack :=
  mkStack width height [].

(** Modelled from the spec: [ImageStack.addSlice(label, ip)] of the host
    appends the plane with its label at the end of the stack. *)
Definition addSlice (s : ImageStack) (label : string) (ip : ImageProcessor)
  : ImageStack :=
  mkStack (st_width s) (st_height s) (st_slices s ++ [(label, ip)])%list.

(** [ImagePlus(title, stack)]: a plain stack, all planes along z. *)
Definition ImagePlus_new (t : string) (s : ImageStack) : ImagePlus :=
  mkImp t s 1 (getSize s) 1 1 default_calibration.

(** Modelled from the spec: [imp.setDimensions(c, z, t)] of the host
    relabels the axes of the stack and leaves the planes untouched (the
    host's contract asks that c * z * t be the stack size). *)
Definition setDimensions (imp : ImagePlus) (c z t : Z) : ImagePlus :=
  mkImp (title imp) (imp_stack imp) c z t (currentSlice imp) (calibration imp).

Definition setCalibration (imp : ImagePlus) (cal : Calibration) : ImagePlus :=
  mkImp (title imp) (imp_stack imp) (nChannels imp) (nSlices imp)
        (nFrames imp) (currentSlice imp) cal.

Definition setTitle (imp : ImagePlus) (t : string) : ImagePlus :=
  mkImp t (imp_stack imp) (nChannels imp) (nSlices imp)
        (nFrames imp) (currentSlice imp) (calibration imp).

Definition setSlice (imp : ImagePlus) (n : Z) : ImagePlus :=
  mkImp (title imp) (imp_stack imp) (nChannels imp) (nSlices imp)
        (nFrames imp) n (calibration imp).

(** The plane an empty or exhausted stack answers with. *)
Definition no_processor : ImageProcessor := mkIP 0 0 0 [].

(** [imp.getProcessor()]: the plane of the current slice. *)
Definition getProcessor (imp : ImagePlus) : ImageProcessor :=
  nth (Z.to_nat (currentSlice imp - 1))
      (map snd (st_slices (imp_stack imp))) no_processor.

(** [ip.duplicate()]: a copy, equal as a value. *)
Definition duplicate (ip : ImageProcessor) : ImageProcessor := ip.

(** Position (0-based) of plane (c, z, t), 1-based, in a czt-ordered stack. *)
Definition stack_index (imp : ImagePlus) (c z t : Z) : Z :=
  (t - 1) * nSlices imp * nChannels imp + (z - 1) * nChannels imp + (c - 1).

Definition plane_at (imp : ImagePlus) (c z t : Z)
  : option (string * ImageProcessor) :=
  let i := stack_index imp c z t in
  if i <? 0 then None else nth_error (st_slices (imp_stack imp)) (Z.to_nat i).

Definition opt_list {A : Type} (o : option A) : list A :=
  match o with Some a => [a] | None => [] end.

(** Modelled from the spec: [Duplicator().run(imp, c1, c2, z1, z2, t1, t2)]
    of the host copies the sub-range of channels, slices and frames, in czt
    order, keeping width, height and calibration. *)
Definition Duplicator_run (imp : ImagePlus) (c1 c2 z1 z2 t1 t2 : Z)
  : ImagePlus :=
  mkImp ("DUP_" ++ title imp)
        (mkStack (getWidth imp) (getHeight imp)
           (flat_map (fun t =>
              flat_map (fun z =>
                flat_map (fun c => opt_list (plane_at imp c z t))
                         (range c1 (c2 + 1)))
                       (range z1 (z2 + 1)))
                     (range t1 (t2 + 1))))
        (c2 - c1 + 1) (z2 - z1 + 1) (t2 - t1 + 1) 1 (calibration imp).

(** A blank plane: [width * height] zero pixels of the given bit depth. *)
Definition blank_processor (width height bitDepth : Z) : ImageProcessor :=
  mkIP width height bitDepth (repeat 0 (Z.to_nat (width * height))).

(** Modelled from the spec: [IJ.createImage(title, width, height, depth,
    bitDepth)] of the host makes a blank image: [depth] planes of
    [width * height] zero pixels. *)
Definition IJ_createImage (t : string) (width height depth bitDepth : Z)
  : ImagePlus :=
  mkImp t
        (mkStack width height
           (repeat (t, blank_processor width height bitDepth) (Z.to_nat depth)))
        1 depth 1 1 default_calibration.

(** ** Results of fallible calls *)

(** A call returns a value or raises an exception carrying a message. *)
Inductive Result (A : Type) : Type :=
| Ok (a : A)
| Raise (e : string).

Arguments Ok {A} a.
Arguments Raise {A} e.

(** Modelled from the spec: [HyperStackConverter.toHyperStack(imp, c, z, t,
    "default", "Grayscale")] of the host reshapes a flat stack in czt order
    and needs an exact plane count; otherwise it raises.  The host also
    refuses a stack of a single plane, which is no stack to reshape. *)
Definition toHyperStack (imp : ImagePlus) (c z t : Z) (order mode : string)
  : Result ImagePlus :=
  if getSize (imp_stack imp) =? 1
  then Raise "Non-RGB stack required"
  else if c * z * t =? getSize (imp_stack imp)
       then Ok (setDimensions imp c z t)
       else Raise "C*Z*T not equal stack size".

Definition same_shape (a b : ImagePlus) : bool :=
  (getWidth a =? getWidth b) && (getHeight a =? getHeight b) &&
  (nSlices a =? nSlices b) && (nFrames a =? nFrames b).

(** Modelled from the spec: [RGBStackMerge.mergeChannels(images, keep)] of
    the host combines N single-channel images of one shape into one
    N-channel image, planes interleaved in czt order; it answers null when
    the images cannot be combined. *)
Definition mergeChannels (images : list ImagePlus) (keepSourceImages : bool)
  : option ImagePlus :=
  match images with
  | [] => None
  | first :: _ =>
      if forallb (fun i => (nChannels i =? 1) && same_shape first i) images
      then
        Some (mkImp (title first)
                (mkStack (getWidth first) (getHeight first)
                   (flat_map
                      (fun p =>
                         flat_map
                           (fun i => opt_list
                                       (nth_error (st_slices (imp_stack i)) p))
                           images)
                      (seq 0 (Z.to_nat (nSlices first * nFrames first)))))
                (Z.of_nat (List.length images)) (nSlices first) (nFrames first)
                1 (calibration first))
      else None
  end.

(** ** Files *)

(** [java.io.File]: a directory and a name in it. *)
Record File : Type := mkFile {
  file_parent : string;
  file_name : string
}.

Definition getName (f : File) : string := file_name f.
Definition getAbsolutePath (f : File) : string :=
  file_parent f ++ "/" ++ file_name f.

(** ** Script parameters (the [#@] header) *)

Record Params : Type := mkParams {
  target_channel : Z;
  prob_threshold : Q;
  overlap_threshold : Q;
  min_iou : Q;
  append_to_original : bool;
  output_dir : string
}.

(** ** The external pipeline *)

(** What the script puts in TrackMate's [Settings]. *)
Record Settings : Type := mkSettings {
  settings_imp : ImagePlus;
  TARGET_CHANNEL : Z;
  SCORE_THRESHOLD : Q;
  OVERLAP_THRESHOLD : Q;
  IOU_CALCULATION : string;
  MIN_IOU : Q;
  SCALE_FACTOR : Q
}.

Inductive LabelIdPainting : Type :=
| LABEL_IS_TRACK_ID
| LABEL_IS_SPOT_ID
| LABEL_IS_INDEX.

(** The services the script consumes and does not implement.  Each is a
    deterministic function of what the script hands over; each may raise. *)
Record Host : Type := mkHost {
  IJ_openImage : string -> Result (option ImagePlus);
  TrackMate_checkInput : Settings -> Result bool;
  TrackMate_process : Settings -> Result bool;
  createLabelImagePlus :
    Settings -> bool -> bool -> LabelIdPainting -> Result (option ImagePlus)
}.

(** ** Script state and its monad *)

(** The variables the script mutates, the files written by [IJ.save] and the
    images released by [close()], in order. *)
Record State : Type := mkState {
  output_stack : ImageStack;
  successful_timepoints : Z;
  saved : list (string * ImagePlus);
  closed : list ImagePlus
}.

(** A statement runs on a state and leaves a state, also when it raises. *)
Definition M (A : Type) : Type := State -> State * Result A.

Definition ret {A : Type} (a : A) : M A := fun st => (st, Ok a).

Definition bind {A B : Type} (m : M A) (k : A -> M B) : M B :=
  fun st =>
    match m st with
    | (st', Ok a) => k a st'
    | (st', Raise e) => (st', Raise e)
    end.

Definition raise {A : Type} (e : string) : M A := fun st => (st, Raise e).

(** A host call inside the script. *)
Definition call {A : Type} (r : Result A) : M A := fun st => (st, r).

(** [try: body / except Exception as e: handler e]. *)
Definition try_except {A : Type} (body : M A) (handler : string -> M A) : M A :=
  fun st =>
    match body st with
    | (st', Ok a) => (st', Ok a)
    | (st', Raise e) => handler e st'
    end.

Declare Scope script_scope.
Delimit Scope script_scope with script.
Notation "x <- m ;; k" := (bind m (fun x => k))
  (at level 61, m at next level, right associativity) : script_scope.
Notation "m ;; k" := (bind m (fun _ => k))
  (at level 61, right associativity) : script_scope.
Open Scope script_scope.

(** [for x in xs: body x]; an exception leaves the loop. *)
Fixpoint for_each {A : Type} (xs : list A) (body : A -> M unit) : M unit :=
  match xs with
  | [] => ret tt
  | x :: xs' => body x ;; for_each xs' body
  end.

Definition exec {A : Type} (m : M A) (st : State) : State := fst (m st).
Definition result {A : Type} (m : M A) (st : State) : Result A := snd (m st).

(** [output_stack = s]. *)
Definition set_output_stack (s : ImageStack) : M unit :=
  fun st => (mkState s (successful_timepoints st) (saved st) (closed st), Ok tt).

(** [successful_timepoints = n]. *)
Definition set_successful_timepoints (n : Z) : M unit :=
  fun st => (mkState (output_stack st) n (saved st) (closed st), Ok tt).

(** [output_stack.addSlice(label, ip)]. *)
Definition output_stack_addSlice (label : string) (ip : ImageProcessor)
  : M unit :=
  fun st => set_output_stack (addSlice (output_stack st) label ip) st.

(** [successful_timepoints += 1]. *)
Definition incr_successful_timepoints : M unit :=
  fun st => set_successful_timepoints (successful_timepoints st + 1) st.

(** [imp.close()]. *)
Definition close (imp : ImagePlus) : M unit :=
  fun st => (mkState (output_stack st) (successful_timepoints st) (saved st)
                     (closed st ++ [imp])%list, Ok tt).

(** Modelled from the spec: [IJ.save(imp, path)] of the host writes the
    image as a TIFF file at [path]. *)
Definition IJ_save (imp : ImagePlus) (path : string) : M unit :=
  fun st => (mkState (output_stack st) (successful_timepoints st)
                     (saved st ++ [(path, imp)])%list (closed st), Ok tt).

(** ** The script *)

Section Script.

Variable host : Host.
Variable params : Params.

(** Lines 117-119, 126-128, 147-149 (suffix ["_empty"]) and 171-173 (suffix
    ["_error"]): the blank-fill loop
    [for z in range(n_slices): output_stack.addSlice("t{}_z{}<suffix>"
    .format(t, z+1), IJ.createImage("Empty", width, height, 1, 16)
    .getProcessor())]. *)
Definition add_empty_slices (width height n_slices t : Z) (suffix : string)
  : M unit :=
  for_each (range 0 n_slices)
    (fun z =>
       let empty_ip := getProcessor (IJ_createImage "Empty" width height 1 16) in
       output_stack_addSlice ("t" ++ str t ++ "_z" ++ str (z + 1) ++ suffix)
                             empty_ip).

(** Lines 81-84: the sub-volume of timepoint [t], z relabelled as frames. *)
Definition sub_volume (imp : ImagePlus) (n_slices t : Z) : ImagePlus :=
  let imp_t := Duplicator_run imp (target_channel params) (target_channel params)
                              1 n_slices t t in
  setDimensions imp_t 1 1 n_slices.

(** Lines 90-108: the TrackMate settings for a sub-volume. *)
Definition make_settings (imp_t : ImagePlus) : Settings :=
  mkSettings imp_t 1 (prob_threshold params) (overlap_threshold params)
             "PRECISE" (min_iou params) 1.

(** Lines 157-160: copy every slice of the label image into the output
    stack. *)
Fixpoint add_label_slices (t : Z) (label_imp_t : ImagePlus) (zs : list Z)
  : M ImagePlus :=
  match zs with
  | [] => ret label_imp_t
  | z :: zs' =>
      let label_imp_t := setSlice label_imp_t z in
      let ip := duplicate (getProcessor label_imp_t) in
      output_stack_addSlice ("t" ++ str t ++ "_z" ++ str z) ip ;;
      add_label_slices t label_imp_t zs'
  end.

(** Lines 77-173: the body of the timepoint loop.  Each [continue] ends the
    body. *)
Definition process_timepoint (imp : ImagePlus) (width height n_slices t : Z)
  : M unit :=
  try_except
    (let imp_t := sub_volume imp n_slices t in
     let settings := make_settings imp_t in
     ok <- call (TrackMate_checkInput host settings) ;;
     if negb ok then
       close imp_t ;;
       add_empty_slices width height n_slices t "_empty"
     else
       ok <- call (TrackMate_process host settings) ;;
       if negb ok then
         close imp_t ;;
         add_empty_slices width height n_slices t "_empty"
       else
         label_imp_t <- call (createLabelImagePlus host settings false true
                                                   LABEL_IS_TRACK_ID) ;;
         match label_imp_t with
         | None =>
             close imp_t ;;
             add_empty_slices width height n_slices t "_empty"
         | Some label_imp_t =>
             let n_label_frames := getNFrames label_imp_t in
             let label_imp_t := setDimensions label_imp_t 1 n_label_frames 1 in
             label_imp_t <- add_label_slices t label_imp_t
                              (range 1 (getNSlices label_imp_t + 1)) ;;
             incr_successful_timepoints ;;
             close label_imp_t ;;
             close imp_t
         end)
    (fun e => add_empty_slices width height n_slices t "_error").

(** Lines 72-173: a fresh output stack and counter, then every timepoint. *)
Definition segment_timepoints (imp : ImagePlus) : M unit :=
  let width := getWidth imp in
  let height := getHeight imp in
  let n_slices := getNSlices imp in
  let n_frames := getNFrames imp in
  set_output_stack (ImageStack_new width height) ;;
  set_successful_timepoints 0 ;;
  for_each (range 1 (n_frames + 1))
           (process_timepoint imp width height n_slices).

(** Lines 184-196: the flat stack as a hyperstack with the source's
    calibration. *)
Definition label_hyperstack (imp : ImagePlus) (stack : ImageStack)
  : Result ImagePlus :=
  match toHyperStack (ImagePlus_new "Labels" stack) 1 (getNSlices imp)
                     (getNFrames imp) "default" "Grayscale" with
  | Ok label_imp => Ok (setCalibration label_imp (getCalibration imp))
  | Raise e => Raise e
  end.

(** Lines 225-230: every original channel over the full z and frame range,
    then the labels. *)
Definition channel_list (imp label_imp : ImagePlus) : list ImagePlus :=
  (map (fun c => Duplicator_run imp c c 1 (getNSlices imp) 1 (getNFrames imp))
       (range 1 (getNChannels imp + 1)) ++ [label_imp])%list.

(** Lines 209-220 and 233-247 share this: merge, title, calibration, save.
    [merged_imp.setTitle] on a null merge raises. *)
Definition save_merged (images : list ImagePlus) (name_without_ext : string)
           (cal : Calibration) : M ImagePlus :=
  match mergeChannels images false with
  | None => raise "AttributeError: 'NoneType' object has no attribute 'setTitle'"
  | Some merged_imp =>
      let merged_imp := setTitle merged_imp (name_without_ext ++ "_with_labels") in
      let merged_imp := setCalibration merged_imp cal in
      let output_file := mkFile (output_dir params)
                                (name_without_ext ++ "_with_labels.tif") in
      IJ_save merged_imp (getAbsolutePath output_file) ;;
      ret merged_imp
  end.

(** Lines 198-256: name the output, write it, release the images. *)
Definition write_output (input_file : File) (imp label_imp : ImagePlus)
  : M unit :=
  let cal := getCalibration imp in
  let original_name := getName input_file in
  let name_without_ext := splitext_root original_name in
  (if append_to_original params then
     if getNChannels imp =? 1 then
       merged_imp <- save_merged [imp; label_imp] name_without_ext cal ;;
       close merged_imp
     else
       let channels := channel_list imp label_imp in
       merged_imp <- save_merged channels name_without_ext cal ;;
       for_each (removelast channels) close ;;
       close merged_imp
   else
     let output_file := mkFile (output_dir params)
                               (name_without_ext ++ "_label_3D.tif") in
     IJ_save label_imp (getAbsolutePath output_file)) ;;
  close label_imp ;;
  close imp.

(** Lines 177-256: after the timepoint loop. *)
Definition compose_output (input_file : File) (imp : ImagePlus) : M unit :=
  fun st =>
    if getSize (output_stack st) =? 0 then
      close imp st
    else
      (label_imp <- call (label_hyperstack imp (output_stack st)) ;;
       write_output input_file imp label_imp) st.

(** Lines 43-263: the body of the file loop. *)
Definition process_file (input_file : File) : M unit :=
  try_except
    (imp <- call (IJ_openImage host (getAbsolutePath input_file)) ;;
     match imp with
     | None => ret tt
     | Some imp =>
         let n_channels := getNChannels imp in
         if (target_channel params <? 1) || (target_channel params >? n_channels)
         then close imp
         else
           segment_timepoints imp ;;
           compose_output input_file imp
     end)
    (fun e => ret tt).

(** Lines 38-263: every input file in turn. *)
Definition main (input_files : list File) : M unit :=
  for_each input_files process_file.

End Script.

(** ** Sample hosts and inputs *)

(** A source image of the given shape: plane (c, z, t) holds the single
    pixel value [100 * t + 10 * z + c] repeated over the plane. *)
Definition sample_image (name : string) (w h c z t : Z) : ImagePlus :=
  mkImp name
        (mkStack w h
           (flat_map (fun ti =>
              flat_map (fun zi =>
                map (fun ci =>
                       ("c" ++ str ci ++ "z" ++ str zi ++ "t" ++ str ti,
                        mkIP w h 8 (repeat (100 * ti + 10 * zi + ci)
                                           (Z.to_nat (w * h)))))
                    (range 1 (c + 1)))
                       (range 1 (z + 1)))
                     (range 1 (t + 1))))
        c z t 1 (mkCal (1 # 2) (1 # 2) 2 30 "micron").

(** A label image with [frames] frames, every pixel set to [v]. *)
Definition sample_labels (w h frames v : Z) : ImagePlus :=
  mkImp "LblImg"
        (mkStack w h
           (map (fun f => ("", mkIP w h 16 (repeat v (Z.to_nat (w * h)))))
                (range 1 (frames + 1))))
        1 1 frames 1 default_calibration.

(** A 2-channel, 2-slice, 3-frame source of 2 x 1 pixels, and a 1-channel
    one of the same shape. *)
Definition source_2ch : ImagePlus := sample_image "cells.nd2" 2 1 2 2 3.
Definition source_1ch : ImagePlus := sample_image "cells.nd2" 2 1 1 2 3.

(** A source of a single plane: 1 channel, 1 z-slice, 1 frame. *)
Definition source_single : ImagePlus := sample_image "cells.nd2" 2 1 1 1 1.

Definition input_cells : File := mkFile "/data" "cells.nd2".
Definition input_other : File := mkFile "/data" "other.tif".

(** A host that opens [img] whatever the path and whose pipeline labels
    every frame of the sub-volume it is given. *)
Definition host_ok (img : ImagePlus) : Host :=
  mkHost (fun _ => Ok (Some img))
         (fun _ => Ok true)
         (fun _ => Ok true)
         (fun s _ _ _ =>
            Ok (Some (sample_labels (getWidth (settings_imp s))
                                    (getHeight (settings_imp s))
                                    (getNFrames (settings_imp s)) 7))).

(** A host whose pipeline fails at [process()] on every timepoint. *)
Definition host_process_fails (img : ImagePlus) : Host :=
  mkHost (fun _ => Ok (Some img))
         (fun _ => Ok true)
         (fun _ => Ok false)
         (fun _ _ _ _ => Ok None).

(** A host whose pipeline raises in [checkInput()] on every timepoint. *)
Definition host_raises (img : ImagePlus) : Host :=
  mkHost (fun _ => Ok (Some img))
         (fun _ => Raise "java.lang.IllegalStateException")
         (fun _ => Ok true)
         (fun _ _ _ _ => Ok None).

(** A host whose label exporter answers with a single-frame label image,
    whatever the sub-volume. *)
Definition host_one_frame (img : ImagePlus) : Host :=
  mkHost (fun _ => Ok (Some img))
         (fun _ => Ok true)
         (fun _ => Ok true)
         (fun s _ _ _ =>
            Ok (Some (sample_labels (getWidth (settings_imp s))
                                    (getHeight (settings_imp s)) 1 7))).

(** The first pixel of the first plane of an image. *)
Definition first_pixel (img : ImagePlus) : Z :=
  hd 0 (ip_pixels (getProcessor (setSlice img 1))).

(** A host whose pipeline labels the first timepoint of [sample_image]
    sources, fails the input check on the second and raises in [process()]
    on the third. *)
Definition host_mixed (img : ImagePlus) : Host :=
  mkHost (fun _ => Ok (Some img))
         (fun s => Ok (negb (first_pixel (settings_imp s) / 100 =? 2)))
         (fun s => if first_pixel (settings_imp s) / 100 =? 3
                   then Raise "java.lang.RuntimeException"
                   else Ok true)
         (fun s _ _ _ =>
            Ok (Some (sample_labels (getWidth (settings_imp s))
                                    (getHeight (settings_imp s))
                                    (getNFrames (settings_imp s)) 7))).

Definition params_label_only : Params :=
  mkParams 1 (1 # 2) (3 # 10) (1 # 10) false "/out".

Definition params_append : Params :=
  mkParams 1 (1 # 2) (3 # 10) (1 # 10) true "/out".

Definition params_channel_3 : Params :=
  mkParams 3 (1 # 2) (3 # 10) (1 # 10) true "/out".

(** The state before the first file: nothing written, nothing released. *)
Definition initial_state : State :=
  mkState (ImageStack_new 0 0) 0 [] [].

(** ** What a run leaves behind, as functions of the host's answers

    These restate the script's effect on [output_stack] and on the written
    files as plain functions; the lemmas below prove that the script
    computes them. *)

(** How the pipeline ends on the sub-volume of timepoint [t]. *)
Inductive Outcome : Type :=
| InputCheckFailed
| ProcessingFailed
| NullLabelExport
| ExceptionRaised (e : string)
| Labelled (label_imp_t : ImagePlus).

Definition pipeline_outcome (host : Host) (params : Params) (imp : ImagePlus)
           (t : Z) : Outcome :=
  let settings := make_settings params (sub_volume params imp (getNSlices imp) t) in
  match TrackMate_checkInput host settings with
  | Raise e => ExceptionRaised e
  | Ok false => InputCheckFailed
  | Ok true =>
      match TrackMate_process host settings with
      | Raise e => ExceptionRaised e
      | Ok false => ProcessingFailed
      | Ok true =>
          match createLabelImagePlus host settings false true
                                     LABEL_IS_TRACK_ID with
          | Raise e => ExceptionRaised e
          | Ok None => NullLabelExport
          | Ok (Some label_imp_t) => Labelled label_imp_t
          end
      end
  end.

Definition failed (o : Outcome) : bool :=
  match o with Labelled _ => false | _ => true end.

(** The tag suffix of the blank slices of a failed timepoint. *)
Definition fallback_suffix (o : Outcome) : string :=
  match o with ExceptionRaised _ => "_error" | _ => "_empty" end.

(** The slices of one blank fill. *)
Definition blank_slices (width height n_slices t : Z) (suffix : string)
  : list (string * ImageProcessor) :=
  map (fun z => ("t" ++ str t ++ "_z" ++ str (z + 1) ++ suffix,
                 blank_processor width height 16))
      (range 0 n_slices).

(** The label image after [setDimensions(1, n_label_frames, 1)]. *)
Definition frames_to_slices (label_imp_t : ImagePlus) : ImagePlus :=
  setDimensions label_imp_t 1 (getNFrames label_imp_t) 1.

(** The slices copied from an exported label image. *)
Definition exported_slices (t : Z) (label_imp_t : ImagePlus)
  : list (string * ImageProcessor) :=
  map (fun z => ("t" ++ str t ++ "_z" ++ str z,
                 getProcessor (setSlice (frames_to_slices label_imp_t) z)))
      (range 1 (getNFrames label_imp_t + 1)).

(** The slices timepoint [t] adds to the output stack. *)
Definition timepoint_slices (host : Host) (params : Params) (imp : ImagePlus)
           (t : Z) : list (string * ImageProcessor) :=
  match pipeline_outcome host params imp t with
  | Labelled label_imp_t => exported_slices t label_imp_t
  | o => blank_slices (getWidth imp) (getHeight imp) (getNSlices imp) t
                      (fallback_suffix o)
  end.

(** The output stack after the timepoint loop. *)
Definition label_stack (host : Host) (params : Params) (imp : ImagePlus)
  : ImageStack :=
  mkStack (getWidth imp) (getHeight imp)
          (flat_map (timepoint_slices host params imp)
                    (range 1 (getNFrames imp + 1))).

Definition label_path (params : Params) (input_file : File) : string :=
  output_dir params ++ "/" ++ splitext_root (getName input_file)
             ++ "_label_3D.tif".

Definition merged_path (params : Params) (input_file : File) : string :=
  output_dir params ++ "/" ++ splitext_root (getName input_file)
             ++ "_with_labels.tif".

(** The images handed to the channel merge in append mode. *)
Definition merge_inputs (imp label_imp : ImagePlus) : list ImagePlus :=
  if getNChannels imp =? 1 then [imp; label_imp]
  else channel_list imp label_imp.

(** The file written for a source and its label hyperstack, if any. *)
Definition output_entry (params : Params) (input_file : File)
           (imp label_imp : ImagePlus) : list (string * ImagePlus) :=
  if append_to_original params then
    match mergeChannels (merge_inputs imp label_imp) false with
    | Some merged_imp =>
        [(merged_path params input_file,
          setCalibration
            (setTitle merged_imp
                      (splitext_root (getName input_file) ++ "_with_labels"))
            (getCalibration imp))]
    | None => []
    end
  else [(label_path params input_file, label_imp)].

(** The files written once the timepoint loop has left [stack]. *)
Definition composed_files (params : Params) (input_file : File)
           (imp : ImagePlus) (stack : ImageStack) : list (string * ImagePlus) :=
  if getSize stack =? 0 then []
  else match label_hyperstack imp stack with
       | Ok label_imp => output_entry params input_file imp label_imp
       | Raise _ => []
       end.

(** The channel index the script accepts for an image. *)
Definition channel_in_range (params : Params) (imp : ImagePlus) : bool :=
  negb ((target_channel params <? 1)
        || (target_channel params >? getNChannels imp)).

(** The files written for one input file. *)
Definition file_output (host : Host) (params : Params) (input_file : File)
  : list (string * ImagePlus) :=
  match IJ_openImage host (getAbsolutePath input_file) with
  | Ok (Some imp) =>
      if channel_in_range params imp
      then composed_files params input_file imp (label_stack host params imp)
      else []
  | _ => []
  end.

(** A slice is blank: 16-bit, of the given size, every pixel zero. *)
Definition is_blank (width height : Z) (ip : ImageProcessor) : Prop :=
  ip_width ip = width /\ ip_height ip = height /\ ip_bitDepth ip = 16 /\
  ip_pixels ip = repeat 0 (Z.to_nat (width * height)).

(** Every export of the file's timepoints has as many frames as the source
    has z-slices. *)
Definition exports_match (host : Host) (params : Params) (imp : ImagePlus)
  : Prop :=
  forall t label_imp_t,
    1 <= t <= getNFrames imp ->
    pipeline_outcome host params imp t = Labelled label_imp_t ->
    getNFrames label_imp_t = getNSlices imp.

(** Every timepoint of the file fails. *)
Definition all_timepoints_fail (host : Host) (params : Params)
           (imp : ImagePlus) : Prop :=
  forall t, 1 <= t <= getNFrames imp ->
            failed (pipeline_outcome host params imp t) = true.

(** The state with [l] appended to the output stack. *)
Definition append_slices (st : State) (l : list (string * ImageProcessor))
  : State :=
  mkState (mkStack (st_width (output_stack st)) (st_height (output_stack st))
                   (st_slices (output_stack st) ++ l)%list)
          (successful_timepoints st) (saved st) (closed st).

(** The images timepoint [t] releases. *)
Definition timepoint_closed (host : Host) (params : Params) (imp : ImagePlus)
           (t : Z) : list ImagePlus :=
  let imp_t := sub_volume params imp (getNSlices imp) t in
  match pipeline_outcome host params imp t with
  | Labelled label_imp_t =>
      [fold_left setSlice (range 1 (getNFrames label_imp_t + 1))
                 (frames_to_slices label_imp_t);
       imp_t]
  | ExceptionRaised _ => []
  | _ => [imp_t]
  end.

(** The state after timepoint [t]. *)
Definition after_timepoint (host : Host) (params : Params) (imp : ImagePlus)
           (t : Z) (st : State) : State :=
  mkState (output_stack (append_slices st (timepoint_slices host params imp t)))
          (successful_timepoints st
           + (if failed (pipeline_outcome host params imp t) then 0 else 1))
          (saved st)
          (closed st ++ timepoint_closed host params imp t)%list.


(** A host that cannot open any file: [IJ.openImage] answers null. *)
Definition host_cannot_open : Host :=
  mkHost (fun _ => Ok None)
         (fun _ => Ok true)
         (fun _ => Ok true)
         (fun _ _ _ _ => Ok None).

(** A host whose reader raises on every file. *)
Definition host_open_raises : Host :=
  mkHost (fun _ => Raise "java.io.IOException")
         (fun _ => Ok true)
         (fun _ => Ok true)
         (fun _ _ _ _ => Ok None).

(** * Properties *)

(** Case split on the three timepoints of the sample sources. *)
Ltac three_timepoints t Ht :=
  change (getNFrames _) with 3 in Ht;
  let Hc := fresh "Hc" in
  assert (Hc : t = 1 \/ t = 2 \/ t = 3) by lia;
  destruct Hc as [-> | [-> | ->]].

(** ** Ranges *)

Lemma range_length (a b : Z) : List.length (range a b) = Z.to_nat (b - a).
Proof. unfold range. now rewrite length_map, length_seq. Qed.

Lemma in_range (a b x : Z) : In x (range a b) <-> a <= x < b.
Proof.
  unfold range. rewrite in_map_iff. split.
  - intros [i [<- Hi]]. apply in_seq in Hi. lia.
  - intros Hx. exists (Z.to_nat (x - a)). split; [lia|].
    apply in_seq. lia.
Qed.

Lemma range_nth_error (a b : Z) (i : nat) :
  (i < Z.to_nat (b - a))%nat ->
  nth_error (range a b) i = Some (a + Z.of_nat i).
Proof.
  intros Hi. unfold range.
  rewrite nth_error_map, nth_error_seq.
  destruct (Nat.ltb_spec i (Z.to_nat (b - a))); [reflexivity | lia].
Qed.


(** ** The monad on the script's primitives *)

Lemma append_slices_nil (st : State) : append_slices st [] = st.
Proof.
  destruct st as [[w h sl] n sv cl]. unfold append_slices. simpl.
  now rewrite app_nil_r.
Qed.

Lemma append_slices_app (st : State) (l1 l2 : list (string * ImageProcessor)) :
  append_slices (append_slices st l1) l2 = append_slices st (l1 ++ l2).
Proof. unfold append_slices. simpl. now rewrite app_assoc. Qed.

Lemma addSlice_run (label : string) (ip : ImageProcessor) (st : State) :
  output_stack_addSlice label ip st = (append_slices st [(label, ip)], Ok tt).
Proof. reflexivity. Qed.

Lemma for_each_addSlice {A : Type} (xs : list A) (f : A -> string)
      (g : A -> ImageProcessor) (st : State) :
  for_each xs (fun x => output_stack_addSlice (f x) (g x)) st
  = (append_slices st (map (fun x => (f x, g x)) xs), Ok tt).
Proof.
  revert st. induction xs as [|x xs IH]; intros st; simpl.
  - now rewrite append_slices_nil.
  - unfold bind. rewrite addSlice_run, IH, append_slices_app. reflexivity.
Qed.

Lemma empty_processor_blank (width height : Z) :
  getProcessor (IJ_createImage "Empty" width height 1 16)
  = blank_processor width height 16.
Proof. reflexivity. Qed.

Lemma add_empty_slices_run (width height n_slices t : Z) (suffix : string)
      (st : State) :
  add_empty_slices width height n_slices t suffix st
  = (append_slices st (blank_slices width height n_slices t suffix), Ok tt).
Proof.
  unfold add_empty_slices, blank_slices.
  now rewrite (for_each_addSlice (range 0 n_slices)
                 (fun z => "t" ++ str t ++ "_z" ++ str (z + 1) ++ suffix)
                 (fun _ => getProcessor (IJ_createImage "Empty" width height 1 16))).
Qed.

Lemma add_label_slices_run (t : Z) (zs : list Z) (label_imp_t : ImagePlus)
      (st : State) :
  add_label_slices t label_imp_t zs st
  = (append_slices st
       (map (fun z => ("t" ++ str t ++ "_z" ++ str z,
                       getProcessor (setSlice label_imp_t z))) zs),
     Ok (fold_left setSlice zs label_imp_t)).
Proof.
  revert label_imp_t st. induction zs as [|z zs IH]; intros lbl st; simpl.
  - now rewrite append_slices_nil.
  - unfold bind, duplicate. rewrite addSlice_run, IH, append_slices_app.
    reflexivity.
Qed.

(** ** One timepoint *)

Lemma process_timepoint_run (host : Host) (params : Params) (imp : ImagePlus)
      (t : Z) (st : State) :
  process_timepoint host params imp (getWidth imp) (getHeight imp)
                    (getNSlices imp) t st
  = (after_timepoint host params imp t st, Ok tt).
Proof.
  unfold process_timepoint, after_timepoint, timepoint_closed,
    timepoint_slices, pipeline_outcome, try_except, bind, call.
  destruct (TrackMate_checkInput host _) as [[|]|e]; simpl.
  - destruct (TrackMate_process host _) as [[|]|e]; simpl.
    + destruct (createLabelImagePlus host _ _ _ _) as [[lbl|]|e]; simpl.
      * rewrite add_label_slices_run. simpl.
        destruct st as [os n sv cl]. unfold append_slices. simpl.
        rewrite <- app_assoc. reflexivity.
      * rewrite add_empty_slices_run. unfold append_slices. simpl.
        now rewrite Z.add_0_r.
      * rewrite add_empty_slices_run. destruct st as [os n sv cl].
        unfold append_slices. simpl. now rewrite Z.add_0_r, app_nil_r.
    + rewrite add_empty_slices_run. unfold append_slices. simpl.
      now rewrite Z.add_0_r.
    + rewrite add_empty_slices_run. destruct st as [os n sv cl].
      unfold append_slices. simpl. now rewrite Z.add_0_r, app_nil_r.
  - rewrite add_empty_slices_run. unfold append_slices. simpl.
    now rewrite Z.add_0_r.
  - rewrite add_empty_slices_run. destruct st as [os n sv cl].
    unfold append_slices. simpl. now rewrite Z.add_0_r, app_nil_r.
Qed.

(** ** The timepoint loop *)

Lemma timepoints_run (host : Host) (params : Params) (imp : ImagePlus)
      (ts : list Z) (st : State) :
  for_each ts (process_timepoint host params imp (getWidth imp) (getHeight imp)
                                 (getNSlices imp)) st
  = (fold_left (fun s t => after_timepoint host params imp t s) ts st, Ok tt).
Proof.
  revert st. induction ts as [|t ts IH]; intros st; simpl; [reflexivity|].
  unfold bind. now rewrite process_timepoint_run, IH.
Qed.

Lemma after_timepoints_saved (host : Host) (params : Params) (imp : ImagePlus)
      (ts : list Z) (st : State) :
  saved (fold_left (fun s t => after_timepoint host params imp t s) ts st)
  = saved st.
Proof.
  revert st. induction ts as [|t ts IH]; intros st; simpl; [reflexivity|].
  now rewrite IH.
Qed.

Lemma after_timepoints_stack (host : Host) (params : Params) (imp : ImagePlus)
      (ts : list Z) (st : State) :
  output_stack (fold_left (fun s t => after_timepoint host params imp t s) ts st)
  = mkStack (st_width (output_stack st)) (st_height (output_stack st))
            (st_slices (output_stack st)
             ++ flat_map (timepoint_slices host params imp) ts)%list.
Proof.
  revert st. induction ts as [|t ts IH]; intros st; simpl.
  - destruct st as [[w h sl] n sv cl]. simpl. now rewrite app_nil_r.
  - rewrite IH. simpl. now rewrite <- app_assoc.
Qed.

Lemma segment_timepoints_run (host : Host) (params : Params) (imp : ImagePlus)
      (st : State) :
  exists st',
    segment_timepoints host params imp st = (st', Ok tt) /\
    output_stack st' = label_stack host params imp /\
    saved st' = saved st.
Proof.
  unfold segment_timepoints, bind, set_output_stack, set_successful_timepoints.
  simpl. rewrite timepoints_run.
  eexists. split; [reflexivity|]. split.
  - now rewrite after_timepoints_stack.
  - now rewrite after_timepoints_saved.
Qed.

(** ** Writing the output *)

Lemma for_each_close (l : list ImagePlus) (st : State) :
  for_each l close st
  = (mkState (output_stack st) (successful_timepoints st) (saved st)
             (closed st ++ l)%list, Ok tt).
Proof.
  revert st. induction l as [|i l IH]; intros st; simpl.
  - destruct st. simpl. now rewrite app_nil_r.
  - unfold bind. unfold close at 1. rewrite IH. simpl.
    now rewrite <- app_assoc.
Qed.

Lemma save_merged_run (params : Params) (images : list ImagePlus)
      (name_without_ext : string) (cal : Calibration) (st : State) :
  save_merged params images name_without_ext cal st
  = match mergeChannels images false with
    | Some merged_imp =>
        let out := setCalibration
                     (setTitle merged_imp (name_without_ext ++ "_with_labels"))
                     cal in
        (mkState (output_stack st) (successful_timepoints st)
                 (saved st
                  ++ [((output_dir params ++ "/" ++ name_without_ext
                                   ++ "_with_labels.tif")%string, out)])%list
                 (closed st), Ok out)
    | None =>
        (st, Raise "AttributeError: 'NoneType' object has no attribute 'setTitle'")
    end.
Proof.
  unfold save_merged. destruct (mergeChannels images false); reflexivity.
Qed.

Lemma write_output_saved (params : Params) (input_file : File)
      (imp label_imp : ImagePlus) (st : State) :
  saved (exec (write_output params input_file imp label_imp) st)
  = (saved st ++ output_entry params input_file imp label_imp)%list.
Proof.
  unfold exec, write_output, output_entry, merge_inputs, merged_path, label_path.
  cbv zeta. unfold bind.
  destruct (append_to_original params).
  - destruct (getNChannels imp =? 1).
    + rewrite save_merged_run.
      destruct (mergeChannels _ _); simpl; [reflexivity | now rewrite app_nil_r].
    + rewrite save_merged_run.
      destruct (mergeChannels _ _); simpl; [|now rewrite app_nil_r].
      rewrite for_each_close. reflexivity.
  - reflexivity.
Qed.

Lemma compose_output_saved (params : Params) (input_file : File)
      (imp : ImagePlus) (st : State) :
  saved (exec (compose_output params input_file imp) st)
  = (saved st ++ composed_files params input_file imp (output_stack st))%list.
Proof.
  unfold exec, compose_output, composed_files.
  destruct (getSize (output_stack st) =? 0).
  - simpl. now rewrite app_nil_r.
  - unfold bind, call.
    destruct (label_hyperstack imp (output_stack st)) as [lbl|e].
    + apply write_output_saved.
    + simpl. now rewrite app_nil_r.
Qed.

(** ** One file and the whole run *)

Lemma process_file_run (host : Host) (params : Params) (input_file : File)
      (st : State) :
  result (process_file host params input_file) st = Ok tt /\
  saved (exec (process_file host params input_file) st)
  = (saved st ++ file_output host params input_file)%list.
Proof.
  unfold result, exec, process_file, file_output, channel_in_range,
    try_except, bind, call.
  destruct (IJ_openImage host _) as [[imp|]|e]; simpl;
    try (split; [reflexivity | now rewrite app_nil_r]).
  destruct ((target_channel params <? 1)
            || (target_channel params >? getNChannels imp)); simpl.
  - split; [reflexivity | now rewrite app_nil_r].
  - destruct (segment_timepoints_run host params imp st)
      as [st' [Hrun [Hstack Hsaved]]].
    rewrite Hrun.
    pose proof (compose_output_saved params input_file imp st') as Hc.
    unfold exec in Hc. rewrite Hstack, Hsaved in Hc.
    destruct (compose_output params input_file imp st') as [st'' [[]|e]];
      simpl in *; (split; [reflexivity | exact Hc]).
Qed.

Lemma main_run (host : Host) (params : Params) (input_files : list File)
      (st : State) :
  result (main host params input_files) st = Ok tt /\
  saved (exec (main host params input_files) st)
  = (saved st ++ flat_map (file_output host params) input_files)%list.
Proof.
  unfold main. revert st.
  induction input_files as [|f fs IH]; intros st; simpl.
  - split; [reflexivity | now rewrite app_nil_r].
  - destruct (process_file_run host params f st) as [Hr Hs].
    unfold result, exec, bind in *.
    destruct (process_file host params f st) as [st' r]. simpl in *. subst r.
    destruct (IH st') as [Hr' Hs']. split; [exact Hr'|].
    rewrite Hs', Hs. now rewrite app_assoc.
Qed.

(** ** Slice counts *)

Lemma flat_map_length_const {A B : Type} (f : A -> list B) (l : list A)
      (k : nat) :
  (forall x, In x l -> List.length (f x) = k) ->
  List.length (flat_map f l) = (List.length l * k)%nat.
Proof.
  induction l as [|x l IH]; intros Hk; simpl; [reflexivity|].
  rewrite length_app, Hk by (now left).
  rewrite IH by (intros y Hy; apply Hk; now right). reflexivity.
Qed.

Lemma blank_slices_length (width height n_slices t : Z) (suffix : string) :
  List.length (blank_slices width height n_slices t suffix) = Z.to_nat n_slices.
Proof.
  unfold blank_slices. rewrite length_map, range_length. f_equal. lia.
Qed.

Lemma exported_slices_length (t : Z) (label_imp_t : ImagePlus) :
  List.length (exported_slices t label_imp_t)
  = Z.to_nat (getNFrames label_imp_t).
Proof.
  unfold exported_slices. rewrite length_map, range_length. f_equal. lia.
Qed.

Lemma timepoint_slices_failed (host : Host) (params : Params) (imp : ImagePlus)
      (t : Z) :
  failed (pipeline_outcome host params imp t) = true ->
  timepoint_slices host params imp t
  = blank_slices (getWidth imp) (getHeight imp) (getNSlices imp) t
                 (fallback_suffix (pipeline_outcome host params imp t)).
Proof.
  unfold timepoint_slices.
  destruct (pipeline_outcome host params imp t); simpl;
    [reflexivity .. | discriminate].
Qed.

Lemma timepoint_slices_length (host : Host) (params : Params) (imp : ImagePlus)
      (t : Z) :
  1 <= t <= getNFrames imp ->
  exports_match host params imp ->
  List.length (timepoint_slices host params imp t) = Z.to_nat (getNSlices imp).
Proof.
  intros Ht Hm. unfold timepoint_slices.
  destruct (pipeline_outcome host params imp t) as [| | | e | lbl] eqn:E;
    try apply blank_slices_length.
  rewrite exported_slices_length. f_equal. now apply (Hm t).
Qed.

Lemma label_stack_size (host : Host) (params : Params) (imp : ImagePlus) :
  0 <= getNFrames imp -> 0 <= getNSlices imp ->
  exports_match host params imp ->
  getSize (label_stack host params imp) = getNFrames imp * getNSlices imp.
Proof.
  intros Hf Hs Hm. unfold getSize, label_stack. simpl.
  rewrite (flat_map_length_const _ _ (Z.to_nat (getNSlices imp))).
  - rewrite range_length. lia.
  - intros t Ht. apply in_range in Ht.
    apply timepoint_slices_length; [lia | exact Hm].
Qed.

Lemma all_fail_exports_match (host : Host) (params : Params) (imp : ImagePlus) :
  all_timepoints_fail host params imp -> exports_match host params imp.
Proof.
  intros Hall t lbl Ht E. specialize (Hall t Ht). rewrite E in Hall.
  discriminate.
Qed.

Lemma blank_processor_is_blank (width height : Z) :
  is_blank width height (blank_processor width height 16).
Proof. unfold is_blank. simpl. auto. Qed.

Lemma blank_slices_nth (width height n_slices t : Z) (suffix : string)
      (i : nat) :
  (i < Z.to_nat n_slices)%nat ->
  nth_error (blank_slices width height n_slices t suffix) i
  = Some ("t" ++ str t ++ "_z" ++ str (Z.of_nat i + 1) ++ suffix,
          blank_processor width height 16).
Proof.
  intros Hi. unfold blank_slices.
  rewrite nth_error_map, range_nth_error by lia. reflexivity.
Qed.

(** ** C1 *)

(** C1, as stated, fails: with a label exporter that answers one frame for
    a two-slice sub-volume, a validated 3-frame, 2-slice file leaves 3
    slices on the output stack, not 3 * 2. *)
Lemma slice_count_counterexample :
  IJ_openImage (host_one_frame source_2ch) (getAbsolutePath input_cells)
  = Ok (Some source_2ch) /\
  channel_in_range params_label_only source_2ch = true /\
  getSize (output_stack
             (exec (segment_timepoints (host_one_frame source_2ch)
                                       params_label_only source_2ch)
                   initial_state))
  <> getNFrames source_2ch * getNSlices source_2ch.
Proof.
  split; [reflexivity|]. split; [reflexivity|].
  vm_compute. discriminate.
Qed.

(** C1 (amended): when every successful timepoint's exported label image
    has as many frames as the source has z-slices, the output stack holds
    exactly n_frames * n_slices slices after the timepoint loop, however
    many timepoints failed. *)
Theorem slice_count_after_loop (host : Host) (params : Params)
        (imp : ImagePlus) (st : State) :
  0 <= getNFrames imp -> 0 <= getNSlices imp ->
  exports_match host params imp ->
  getSize (output_stack (exec (segment_timepoints host params imp) st))
  = getNFrames imp * getNSlices imp.
Proof.
  intros Hf Hs Hm.
  destruct (segment_timepoints_run host params imp st) as [st' [Hrun [Hstack _]]].
  unfold exec. rewrite Hrun. simpl. rewrite Hstack.
  now apply label_stack_size.
Qed.

Lemma slice_count_after_loop_witness :
  getSize (output_stack
             (exec (segment_timepoints (host_mixed source_2ch) params_append
                                       source_2ch)
                   initial_state))
  = getNFrames source_2ch * getNSlices source_2ch.
Proof.
  apply slice_count_after_loop.
  - vm_compute. discriminate.
  - vm_compute. discriminate.
  - intros t lbl Ht E.
    change (getNFrames source_2ch) with 3 in Ht.
    assert (Hc : t = 1 \/ t = 2 \/ t = 3) by lia.
    destruct Hc as [-> | [-> | ->]]; vm_compute in E;
      try discriminate; injection E as <-; reflexivity.
Defined.

(** ** C2 *)

(** C2: a failed timepoint (input check, processing, null export or an
    exception) appends exactly n_slices slices to the output stack; slice
    z of them is tagged "t<t>_z<z>_empty" or "t<t>_z<z>_error" and is a
    16-bit all-zero plane of the source's width and height. *)
Theorem failed_timepoint_blank_fill (host : Host) (params : Params)
        (imp : ImagePlus) (t : Z) (st : State) :
  failed (pipeline_outcome host params imp t) = true ->
  exists (suffix : string) (blanks : list (string * ImageProcessor)),
    (suffix = "_empty" \/ suffix = "_error") /\
    st_slices (output_stack
                 (exec (process_timepoint host params imp (getWidth imp)
                          (getHeight imp) (getNSlices imp) t) st))
    = (st_slices (output_stack st) ++ blanks)%list /\
    List.length blanks = Z.to_nat (getNSlices imp) /\
    forall i, (i < Z.to_nat (getNSlices imp))%nat ->
      exists ip,
        nth_error blanks i
        = Some ("t" ++ str t ++ "_z" ++ str (Z.of_nat i + 1) ++ suffix, ip) /\
        is_blank (getWidth imp) (getHeight imp) ip.
Proof.
  intros Hfail.
  exists (fallback_suffix (pipeline_outcome host params imp t)).
  exists (blank_slices (getWidth imp) (getHeight imp) (getNSlices imp) t
                       (fallback_suffix (pipeline_outcome host params imp t))).
  split.
  { destruct (pipeline_outcome host params imp t); simpl; auto. }
  split.
  { unfold exec. rewrite process_timepoint_run. simpl.
    now rewrite timepoint_slices_failed. }
  split; [apply blank_slices_length|].
  intros i Hi. exists (blank_processor (getWidth imp) (getHeight imp) 16).
  split; [now apply blank_slices_nth | apply blank_processor_is_blank].
Qed.

Lemma failed_timepoint_blank_fill_witness :
  exists (suffix : string) (blanks : list (string * ImageProcessor)),
    (suffix = "_empty" \/ suffix = "_error") /\
    st_slices (output_stack
                 (exec (process_timepoint (host_mixed source_2ch) params_append
                          source_2ch (getWidth source_2ch)
                          (getHeight source_2ch) (getNSlices source_2ch) 3)
                       initial_state))
    = (st_slices (output_stack initial_state) ++ blanks)%list /\
    List.length blanks = Z.to_nat (getNSlices source_2ch) /\
    forall i, (i < Z.to_nat (getNSlices source_2ch))%nat ->
      exists ip,
        nth_error blanks i
        = Some ("t" ++ str 3 ++ "_z" ++ str (Z.of_nat i + 1) ++ suffix, ip) /\
        is_blank (getWidth source_2ch) (getHeight source_2ch) ip.
Proof.
  apply (failed_timepoint_blank_fill (host_mixed source_2ch) params_append
                                     source_2ch 3 initial_state).
  vm_compute. reflexivity.
Defined.

(** ** C10 *)

(** C10: a successful timepoint appends as many slices as the exported
    label image has frames (its slice count once the frame axis is read as
    z); that is n_slices exactly when the export has the frame count of
    the n_slices-frame sub-volume it was made from. *)
Theorem successful_timepoint_slice_count (host : Host) (params : Params)
        (imp : ImagePlus) (t : Z) (label_imp_t : ImagePlus) (st : State) :
  pipeline_outcome host params imp t = Labelled label_imp_t ->
  0 <= getNFrames label_imp_t ->
  let st' := exec (process_timepoint host params imp (getWidth imp)
                     (getHeight imp) (getNSlices imp) t) st in
  getNSlices (frames_to_slices label_imp_t) = getNFrames label_imp_t /\
  getSize (output_stack st') - getSize (output_stack st)
  = getNFrames label_imp_t /\
  getNFrames (sub_volume params imp (getNSlices imp) t) = getNSlices imp /\
  (getSize (output_stack st') - getSize (output_stack st) = getNSlices imp
   <-> getNFrames label_imp_t
       = getNFrames (sub_volume params imp (getNSlices imp) t)).
Proof.
  intros E Hpos st'.
  assert (Hcount : getSize (output_stack st') - getSize (output_stack st)
                   = getNFrames label_imp_t).
  { subst st'. unfold exec. rewrite process_timepoint_run.
    unfold after_timepoint, timepoint_slices, getSize. rewrite E. simpl.
    rewrite length_app, exported_slices_length. lia. }
  split; [reflexivity|]. split; [exact Hcount|]. split; [reflexivity|].
  rewrite Hcount. simpl. split; intros H; exact H.
Qed.

Lemma successful_timepoint_slice_count_witness :
  getSize (output_stack
             (exec (process_timepoint (host_one_frame source_2ch)
                      params_label_only source_2ch (getWidth source_2ch)
                      (getHeight source_2ch) (getNSlices source_2ch) 2)
                   initial_state))
  - getSize (output_stack initial_state)
  = getNFrames (sample_labels 2 1 1 7).
Proof.
  apply (successful_timepoint_slice_count (host_one_frame source_2ch)
           params_label_only source_2ch 2 (sample_labels 2 1 1 7)
           initial_state).
  - vm_compute. reflexivity.
  - vm_compute. discriminate.
Defined.

(** ** C4 *)

(** C4: when the target channel is below 1 or above the image's channel
    count, the file is skipped: nothing is written for it, the opened image
    is released, and the run goes on with the next file. *)
Theorem channel_out_of_range_skips (host : Host) (params : Params)
        (input_file : File) (rest : list File) (imp : ImagePlus) (st : State) :
  IJ_openImage host (getAbsolutePath input_file) = Ok (Some imp) ->
  target_channel params < 1 \/ target_channel params > getNChannels imp ->
  saved (exec (process_file host params input_file) st) = saved st /\
  closed (exec (process_file host params input_file) st)
  = (closed st ++ [imp])%list /\
  result (process_file host params input_file) st = Ok tt /\
  main host params (input_file :: rest) st
  = main host params rest (exec (process_file host params input_file) st).
Proof.
  intros Hopen Hrange.
  assert (Hguard : (target_channel params <? 1)
                   || (target_channel params >? getNChannels imp) = true).
  { apply orb_true_iff. destruct Hrange as [H | H].
    - left. now apply Z.ltb_lt.
    - right. apply Z.gtb_lt. lia. }
  assert (Hrun : process_file host params input_file st
                 = (mkState (output_stack st) (successful_timepoints st)
                            (saved st) (closed st ++ [imp])%list, Ok tt)).
  { unfold process_file, try_except, bind, call. rewrite Hopen. simpl.
    rewrite Hguard. reflexivity. }
  unfold exec, result, main. simpl. unfold bind. rewrite Hrun. simpl.
  repeat split; reflexivity.
Qed.

Lemma channel_out_of_range_skips_witness :
  saved (exec (process_file (host_ok source_2ch) params_channel_3 input_cells)
              initial_state)
  = saved initial_state /\
  closed (exec (process_file (host_ok source_2ch) params_channel_3 input_cells)
               initial_state)
  = (closed initial_state ++ [source_2ch])%list /\
  result (process_file (host_ok source_2ch) params_channel_3 input_cells)
         initial_state = Ok tt /\
  main (host_ok source_2ch) params_channel_3 [input_cells; input_cells]
       initial_state
  = main (host_ok source_2ch) params_channel_3 [input_cells]
         (exec (process_file (host_ok source_2ch) params_channel_3 input_cells)
               initial_state).
Proof.
  apply (channel_out_of_range_skips (host_ok source_2ch) params_channel_3
           input_cells [input_cells] source_2ch initial_state).
  - reflexivity.
  - right. vm_compute. reflexivity.
Defined.

(** ** The label hyperstack *)

Lemma label_hyperstack_inv (imp : ImagePlus) (stack : ImageStack)
      (label_imp : ImagePlus) :
  label_hyperstack imp stack = Ok label_imp ->
  label_imp
  = mkImp "Labels" stack 1 (getNSlices imp) (getNFrames imp) 1
          (getCalibration imp) /\
  getSize stack = getNSlices imp * getNFrames imp.
Proof.
  unfold label_hyperstack, toHyperStack, ImagePlus_new. cbn [imp_stack].
  destruct (getSize stack =? 1); [discriminate|].
  destruct (Z.eqb_spec (1 * getNSlices imp * getNFrames imp) (getSize stack))
    as [Heq | Hne]; [|discriminate].
  intros H. injection H as <-. split; [reflexivity | lia].
Qed.

Lemma label_hyperstack_single (imp : ImagePlus) (stack : ImageStack) :
  getSize stack = 1 ->
  label_hyperstack imp stack = Raise "Non-RGB stack required".
Proof.
  intros H1. unfold label_hyperstack, toHyperStack, ImagePlus_new.
  cbn [imp_stack]. now rewrite H1.
Qed.

Lemma label_hyperstack_ok (imp : ImagePlus) (stack : ImageStack) :
  getSize stack = getNSlices imp * getNFrames imp ->
  getSize stack <> 1 ->
  label_hyperstack imp stack
  = Ok (mkImp "Labels" stack 1 (getNSlices imp) (getNFrames imp) 1
              (getCalibration imp)).
Proof.
  intros Hsize H1.
  unfold label_hyperstack, toHyperStack, ImagePlus_new. cbn [imp_stack].
  destruct (Z.eqb_spec (getSize stack) 1); [contradiction|].
  destruct (Z.eqb_spec (1 * getNSlices imp * getNFrames imp) (getSize stack))
    as [Heq | Hne]; [|lia].
  reflexivity.
Qed.

Lemma output_entry_calibration (params : Params) (input_file : File)
      (imp label_imp : ImagePlus) (path : string) (out : ImagePlus) :
  getCalibration label_imp = getCalibration imp ->
  In (path, out) (output_entry params input_file imp label_imp) ->
  getCalibration out = getCalibration imp.
Proof.
  intros Hcal. unfold output_entry.
  destruct (append_to_original params).
  - destruct (mergeChannels _ _); simpl; [|tauto].
    intros [H | []]. injection H as _ <-. reflexivity.
  - simpl. intros [H | []]. injection H as _ <-. exact Hcal.
Qed.

(** ** Merging and writing *)

Lemma range_cons (a b : Z) : a < b -> range a b = a :: range (a + 1) b.
Proof.
  intros Hab. unfold range.
  replace (Z.to_nat (b - a)) with (S (Z.to_nat (b - (a + 1)))) by lia.
  simpl. rewrite <- seq_shift, map_map. f_equal; [lia|].
  apply map_ext. intros i. lia.
Qed.

Lemma channel_in_range_bounds (params : Params) (imp : ImagePlus) :
  channel_in_range params imp = true <->
  1 <= target_channel params <= getNChannels imp.
Proof.
  unfold channel_in_range.
  rewrite negb_true_iff, orb_false_iff, Z.ltb_ge, Z.gtb_ltb, Z.ltb_ge.
  lia.
Qed.

Lemma mergeChannels_ok (first : ImagePlus) (rest : list ImagePlus) :
  (forall i, In i (first :: rest) ->
             nChannels i = 1 /\ getWidth i = getWidth first /\
             getHeight i = getHeight first /\ nSlices i = nSlices first /\
             nFrames i = nFrames first) ->
  exists merged,
    mergeChannels (first :: rest) false = Some merged /\
    nChannels merged = Z.of_nat (List.length (first :: rest)) /\
    nSlices merged = nSlices first /\ nFrames merged = nFrames first.
Proof.
  intros Hall. unfold mergeChannels.
  assert (Hcheck : forallb (fun i => (nChannels i =? 1) && same_shape first i)
                           (first :: rest) = true).
  { apply forallb_forall. intros i Hi.
    destruct (Hall i Hi) as (Hc & Hw & Hh & Hz & Ht).
    unfold same_shape. rewrite Hc, Hw, Hh, Hz, Ht, !Z.eqb_refl. reflexivity. }
  rewrite Hcheck. eexists. split; [reflexivity|]. simpl. auto.
Qed.

Lemma merge_inputs_ok (imp label_imp : ImagePlus) :
  1 <= getNChannels imp ->
  nChannels label_imp = 1 ->
  getWidth label_imp = getWidth imp -> getHeight label_imp = getHeight imp ->
  nSlices label_imp = nSlices imp -> nFrames label_imp = nFrames imp ->
  exists merged,
    mergeChannels (merge_inputs imp label_imp) false = Some merged /\
    nChannels merged = getNChannels imp + 1 /\
    nSlices merged = nSlices imp /\ nFrames merged = nFrames imp.
Proof.
  intros Hn Hc Hw Hh Hz Ht. unfold merge_inputs.
  destruct (Z.eqb_spec (getNChannels imp) 1) as [H1 | H1].
  - destruct (mergeChannels_ok imp [label_imp]) as (m & Hm & Hmc & Hmz & Hmt).
    { intros i [<- | [<- | []]]; auto. }
    exists m. rewrite H1. auto.
  - unfold channel_list. rewrite (range_cons 1) by lia. simpl.
    set (dup := fun c => Duplicator_run imp c c 1 (getNSlices imp) 1
                                        (getNFrames imp)).
    destruct (mergeChannels_ok (dup 1)
                (map dup (range (1 + 1) (getNChannels imp + 1)) ++ [label_imp]))
      as (m & Hm & Hmc & Hmz & Hmt).
    { assert (Hdup : forall c, nChannels (dup c) = 1 /\
                               getWidth (dup c) = getWidth (dup 1) /\
                               getHeight (dup c) = getHeight (dup 1) /\
                               nSlices (dup c) = nSlices (dup 1) /\
                               nFrames (dup c) = nFrames (dup 1)).
      { intros c. unfold dup, Duplicator_run. simpl.
        repeat split; try reflexivity. lia. }
      intros i [<- | Hi]; [apply Hdup|].
      apply in_app_or in Hi. destruct Hi as [Hi | [<- | []]].
      - apply in_map_iff in Hi. destruct Hi as [c [<- _]]. apply Hdup.
      - unfold dup, Duplicator_run, getNSlices, getNFrames. simpl.
        rewrite Hc, Hz, Ht. repeat split; auto; lia. }
    exists m. split; [exact Hm|].
    rewrite Hmc, Hmz, Hmt. unfold dup, Duplicator_run. simpl.
    rewrite length_app, length_map, range_length. simpl.
    unfold getNSlices, getNFrames. repeat split; lia.
Qed.

Lemma segment_timepoints_stack (host : Host) (params : Params)
      (imp : ImagePlus) (st : State) :
  output_stack (exec (segment_timepoints host params imp) st)
  = label_stack host params imp.
Proof.
  destruct (segment_timepoints_run host params imp st) as [st' [Hrun [Hs _]]].
  unfold exec. now rewrite Hrun.
Qed.

Lemma file_output_reached (host : Host) (params : Params) (input_file : File)
      (imp label_imp : ImagePlus) :
  IJ_openImage host (getAbsolutePath input_file) = Ok (Some imp) ->
  channel_in_range params imp = true ->
  getSize (label_stack host params imp) <> 0 ->
  label_hyperstack imp (label_stack host params imp) = Ok label_imp ->
  file_output host params input_file
  = output_entry params input_file imp label_imp.
Proof.
  intros Hopen Hch Hsize Hlabel.
  unfold file_output, composed_files. rewrite Hopen, Hch, Hlabel.
  destruct (Z.eqb_spec (getSize (label_stack host params imp)) 0);
    [contradiction | reflexivity].
Qed.

Lemma file_output_processed (host : Host) (params : Params) (input_file : File)
      (imp : ImagePlus) :
  IJ_openImage host (getAbsolutePath input_file) = Ok (Some imp) ->
  channel_in_range params imp = true ->
  1 <= getNSlices imp -> 1 <= getNFrames imp ->
  getNFrames imp * getNSlices imp <> 1 ->
  exports_match host params imp ->
  file_output host params input_file
  = output_entry params input_file imp
      (mkImp "Labels" (label_stack host params imp) 1 (getNSlices imp)
             (getNFrames imp) 1 (getCalibration imp)).
Proof.
  intros Hopen Hch Hz Ht Hplanes Hm.
  pose proof (label_stack_size host params imp) as Hsize.
  specialize (Hsize ltac:(lia) ltac:(lia) Hm).
  apply file_output_reached; try assumption.
  - rewrite Hsize. nia.
  - apply label_hyperstack_ok; lia.
Qed.

(** ** C6 *)



(** ** C3 *)

(** C3: for a file that reaches the output step (the stack is not empty
    and reshapes into the label hyperstack), one file is written.  With
    append_to_original false it is the label hyperstack alone, named
    <name>_label_3D.tif.  With append_to_original true it is named
    <name>_with_labels.tif and is the merge of the source and the labels
    when the source has one channel (2 channels), and otherwise the merge
    of every source channel, duplicated over all z-slices and frames,
    followed by the labels (N + 1 channels). *)
Theorem output_branch (host : Host) (params : Params) (input_file : File)
        (imp label_imp : ImagePlus) (st : State) :
  IJ_openImage host (getAbsolutePath input_file) = Ok (Some imp) ->
  channel_in_range params imp = true ->
  getSize (output_stack (exec (segment_timepoints host params imp) st)) <> 0 ->
  label_hyperstack imp
    (output_stack (exec (segment_timepoints host params imp) st))
  = Ok label_imp ->
  exists out,
    saved (exec (process_file host params input_file) st)
    = (saved st
       ++ [((output_dir params ++ "/" ++ splitext_root (getName input_file)
               ++ (if append_to_original params
                   then "_with_labels.tif" else "_label_3D.tif"))%string,
            out)])%list /\
    getNSlices out = getNSlices imp /\
    getNFrames out = getNFrames imp /\
    (append_to_original params = false ->
     out = label_imp /\ getNChannels out = 1) /\
    (append_to_original params = true ->
     getNChannels out = getNChannels imp + 1 /\
     (getNChannels imp = 1 -> getNChannels out = 2) /\
     exists merged_imp,
       mergeChannels
         (if getNChannels imp =? 1 then [imp; label_imp]
          else (map (fun c => Duplicator_run imp c c 1 (getNSlices imp)
                                             1 (getNFrames imp))
                    (range 1 (getNChannels imp + 1)) ++ [label_imp])%list)
         false = Some merged_imp /\
       out = setCalibration
               (setTitle merged_imp
                  (splitext_root (getName input_file) ++ "_with_labels"))
               (getCalibration imp)).
Proof.
  intros Hopen Hch Hsize Hlabel.
  rewrite segment_timepoints_stack in Hsize, Hlabel.
  destruct (process_file_run host params input_file st) as [_ Hsaved].
  rewrite Hsaved,
    (file_output_reached host params input_file imp label_imp) by assumption.
  apply label_hyperstack_inv in Hlabel as [Hshape _].
  apply channel_in_range_bounds in Hch.
  unfold output_entry, merged_path, label_path.
  destruct (append_to_original params).
  - destruct (merge_inputs_ok imp label_imp) as (m & Hmerge & Hmc & Hmz & Hmt);
      try (rewrite Hshape; reflexivity); [lia|].
    rewrite Hmerge.
    eexists. split; [reflexivity|].
    split; [exact Hmz|]. split; [exact Hmt|].
    split; [discriminate|]. intros _.
    split; [exact Hmc|]. split.
    + intros H1. unfold getNChannels in *. simpl. rewrite Hmc. lia.
    + exists m. split; [exact Hmerge | reflexivity].
  - exists label_imp. split; [reflexivity|].
    rewrite Hshape.
    split; [reflexivity|]. split; [reflexivity|].
    split; [auto | discriminate].
Qed.

Lemma output_branch_witness :
  exists out,
    saved (exec (process_file (host_mixed source_2ch) params_append input_cells)
                initial_state)
    = [("/out/cells_with_labels.tif", out)] /\
    getNChannels out = 3.
Proof.
  destruct (output_branch (host_mixed source_2ch) params_append input_cells
              source_2ch
              (mkImp "Labels"
                 (output_stack
                    (exec (segment_timepoints (host_mixed source_2ch)
                             params_append source_2ch) initial_state))
                 1 2 3 1 (getCalibration source_2ch))
              initial_state)
    as (out & Hsaved & _ & _ & _ & Happend).
  - reflexivity.
  - reflexivity.
  - vm_compute. discriminate.
  - vm_compute. reflexivity.
  - exists out. split; [exact Hsaved|].
    destruct (Happend eq_refl) as [Hn _]. exact Hn.
Defined.

(** ** C5 *)

Lemma all_fail_slices_blank (host : Host) (params : Params) (imp : ImagePlus)
      (label : string) (ip : ImageProcessor) :
  all_timepoints_fail host params imp ->
  In (label, ip) (st_slices (label_stack host params imp)) ->
  is_blank (getWidth imp) (getHeight imp) ip.
Proof.
  intros Hall Hin. unfold label_stack in Hin. simpl in Hin.
  apply in_flat_map in Hin. destruct Hin as [t [Ht Hin]].
  apply in_range in Ht.
  rewrite timepoint_slices_failed in Hin by (apply Hall; lia).
  unfold blank_slices in Hin. apply in_map_iff in Hin.
  destruct Hin as [z [Heq _]]. injection Heq as _ <-.
  apply blank_processor_is_blank.
Qed.

Lemma output_entry_single (params : Params) (input_file : File)
      (imp : ImagePlus) (stack : ImageStack) :
  1 <= getNChannels imp ->
  st_width stack = getWidth imp -> st_height stack = getHeight imp ->
  exists path out,
    output_entry params input_file imp
      (mkImp "Labels" stack 1 (getNSlices imp) (getNFrames imp) 1
             (getCalibration imp))
    = [(path, out)] /\
    getNSlices out = getNSlices imp /\ getNFrames out = getNFrames imp.
Proof.
  intros Hn Hw Hh. unfold output_entry.
  destruct (append_to_original params).
  - destruct (merge_inputs_ok imp
                (mkImp "Labels" stack 1 (getNSlices imp) (getNFrames imp) 1
                       (getCalibration imp)))
      as (m & Hmerge & _ & Hmz & Hmt); try reflexivity; try assumption.
    rewrite Hmerge. do 2 eexists. split; [reflexivity|]. split; assumption.
  - do 2 eexists. split; [reflexivity|]. split; reflexivity.
Qed.

Lemma output_entry_shape (params : Params) (input_file : File)
      (imp label_imp : ImagePlus) :
  output_entry params input_file imp label_imp = [] \/
  exists out,
    output_entry params input_file imp label_imp
    = [((output_dir params ++ "/" ++ splitext_root (getName input_file)
           ++ (if append_to_original params
               then "_with_labels.tif" else "_label_3D.tif"))%string, out)].
Proof.
  unfold output_entry, merged_path, label_path.
  destruct (append_to_original params).
  - destruct (mergeChannels _ _); [right; eexists; reflexivity | now left].
  - right. eexists. reflexivity.
Qed.

Lemma process_file_reached (host : Host) (params : Params)
      (input_file : File) (imp : ImagePlus) (st : State) :
  IJ_openImage host (getAbsolutePath input_file) = Ok (Some imp) ->
  channel_in_range params imp = true ->
  exec (process_file host params input_file) st
  = exec (compose_output params input_file imp)
         (exec (segment_timepoints host params imp) st).
Proof.
  intros Hopen Hch. unfold exec, process_file, try_except, bind, call.
  rewrite Hopen. unfold channel_in_range in Hch.
  apply negb_true_iff in Hch. rewrite Hch.
  destruct (segment_timepoints_run host params imp st) as [st' [Hseg _]].
  rewrite Hseg. simpl.
  destruct (compose_output params input_file imp st') as [st'' [[]|e]];
    reflexivity.
Qed.

(** C5, as stated, fails: a validated file of a single plane (1 z-slice,
    1 frame) whose only timepoint fails accumulates one blank slice; the
    stack is not empty, yet the reshape refuses a one-plane stack and no
    output is written. *)
Lemma all_fail_single_plane_counterexample :
  IJ_openImage (host_process_fails source_single)
               (getAbsolutePath input_cells) = Ok (Some source_single) /\
  channel_in_range params_label_only source_single = true /\
  all_timepoints_fail (host_process_fails source_single) params_label_only
                      source_single /\
  getSize (output_stack
             (exec (segment_timepoints (host_process_fails source_single)
                      params_label_only source_single) initial_state)) = 1 /\
  ~ exists entry,
      saved (exec (process_file (host_process_fails source_single)
                                params_label_only input_cells) initial_state)
      = (saved initial_state ++ [entry])%list.
Proof.
  split; [reflexivity|]. split; [reflexivity|]. split.
  { intros t Ht. change (getNFrames source_single) with 1 in Ht.
    assert (t = 1) by lia. subst t. vm_compute. reflexivity. }
  split; [vm_compute; reflexivity|].
  intros [entry H]. vm_compute in H. discriminate.
Qed.

(** C5 (amended): when every timepoint of a validated file fails, the
    output stack holds n_frames * n_slices slices, all blank.  When that
    is more than one plane, the stack is composed into a hyperstack of 1
    channel, n_slices z-slices and n_frames frames over those planes and
    one output file is written.  When it is zero slices the file's output
    is aborted: nothing is written and the source is released. *)
Theorem all_fail_still_written (host : Host) (params : Params)
        (input_file : File) (imp : ImagePlus) (st : State) :
  IJ_openImage host (getAbsolutePath input_file) = Ok (Some imp) ->
  channel_in_range params imp = true ->
  0 <= getNSlices imp -> 0 <= getNFrames imp ->
  all_timepoints_fail host params imp ->
  getSize (output_stack (exec (segment_timepoints host params imp) st))
  = getNFrames imp * getNSlices imp /\
  (forall label ip,
      In (label, ip)
         (st_slices (output_stack
                       (exec (segment_timepoints host params imp) st))) ->
      is_blank (getWidth imp) (getHeight imp) ip) /\
  (2 <= getNFrames imp * getNSlices imp ->
   exists label_imp out,
     label_hyperstack imp
       (output_stack (exec (segment_timepoints host params imp) st))
     = Ok label_imp /\
     getNChannels label_imp = 1 /\
     getNSlices label_imp = getNSlices imp /\
     getNFrames label_imp = getNFrames imp /\
     imp_stack label_imp
     = output_stack (exec (segment_timepoints host params imp) st) /\
     saved (exec (process_file host params input_file) st)
     = (saved st
        ++ [((output_dir params ++ "/" ++ splitext_root (getName input_file)
                ++ (if append_to_original params
                    then "_with_labels.tif" else "_label_3D.tif"))%string,
             out)])%list /\
     getNSlices out = getNSlices imp /\ getNFrames out = getNFrames imp) /\
  (getNFrames imp * getNSlices imp = 0 ->
   saved (exec (process_file host params input_file) st) = saved st /\
   closed (exec (process_file host params input_file) st)
   = (closed (exec (segment_timepoints host params imp) st) ++ [imp])%list).
Proof.
  intros Hopen Hch Hz Ht Hall.
  pose proof (all_fail_exports_match host params imp Hall) as Hm.
  assert (Hsize : getSize (label_stack host params imp)
                  = getNFrames imp * getNSlices imp)
    by (apply label_stack_size; assumption).
  rewrite segment_timepoints_stack.
  split; [exact Hsize|]. split.
  { intros label ip Hin.
    now apply (all_fail_slices_blank host params imp label ip). }
  split.
  - intros Hplanes.
    destruct (output_entry_shape params input_file imp
                (mkImp "Labels" (label_stack host params imp) 1
                       (getNSlices imp) (getNFrames imp) 1
                       (getCalibration imp))) as [Hnil | [out Hentry]].
    { destruct (output_entry_single params input_file imp
                  (label_stack host params imp))
        as (path & o & Hentry & _); try reflexivity.
      { apply channel_in_range_bounds in Hch. lia. }
      rewrite Hnil in Hentry. discriminate. }
    destruct (output_entry_single params input_file imp
                (label_stack host params imp))
      as (path & o & Hentry' & Hoz & Hot); try reflexivity.
    { apply channel_in_range_bounds in Hch. lia. }
    rewrite Hentry in Hentry'. injection Hentry' as _ <-.
    eexists. exists out.
    split; [apply label_hyperstack_ok; lia|].
    do 4 (split; [reflexivity|]).
    destruct (process_file_run host params input_file st) as [_ Hsaved].
    rewrite Hsaved, (file_output_processed host params input_file imp)
      by (assumption || nia).
    rewrite Hentry. auto.
  - intros H0.
    rewrite (process_file_reached host params input_file imp st)
      by assumption.
    assert (Hz0 : getSize (output_stack
                             (exec (segment_timepoints host params imp) st))
                  = 0)
      by (rewrite segment_timepoints_stack; lia).
    unfold exec at 1 3. unfold compose_output. rewrite Hz0.
    split; [|reflexivity].
    destruct (segment_timepoints_run host params imp st)
      as [st' [Hrun [_ Hsv]]].
    unfold exec. rewrite Hrun. exact Hsv.
Qed.

Lemma all_fail_still_written_witness :
  exists label_imp out,
    label_hyperstack source_2ch
      (output_stack
         (exec (segment_timepoints (host_process_fails source_2ch)
                                   params_append source_2ch) initial_state))
    = Ok label_imp /\
    getNChannels label_imp = 1 /\
    getNSlices label_imp = getNSlices source_2ch /\
    getNFrames label_imp = getNFrames source_2ch /\
    saved (exec (process_file (host_process_fails source_2ch) params_append
                              input_cells) initial_state)
    = [("/out/cells_with_labels.tif", out)].
Proof.
  destruct (all_fail_still_written (host_process_fails source_2ch)
              params_append input_cells source_2ch initial_state)
    as (_ & _ & Hwritten & _).
  - reflexivity.
  - reflexivity.
  - vm_compute. discriminate.
  - vm_compute. discriminate.
  - intros t Ht. three_timepoints t Ht; vm_compute; reflexivity.
  - destruct Hwritten as (label_imp & out & Hl & Hc & Hz & Ht & _ & Hs & _).
    + vm_compute. discriminate.
    + exists label_imp, out. repeat split; assumption.
Defined.

(** ** C9 *)

(** C9, as stated, fails: a validated 3-frame, 2-slice file whose label
    exports have one frame fills the output stack with 3 slices, the
    reshape into 2 x 3 raises, and no output is written. *)
Lemma always_written_counterexample :
  IJ_openImage (host_one_frame source_1ch) (getAbsolutePath input_cells)
  = Ok (Some source_1ch) /\
  channel_in_range params_append source_1ch = true /\
  1 <= getNFrames source_1ch /\ 1 <= getNSlices source_1ch /\
  ~ exists entry,
      saved (exec (process_file (host_one_frame source_1ch) params_append
                                input_cells) initial_state)
      = (saved initial_state ++ [entry])%list.
Proof.
  split; [reflexivity|]. split; [reflexivity|].
  split; [vm_compute; discriminate|]. split; [vm_compute; discriminate|].
  intros [entry H]. vm_compute in H. discriminate.
Qed.

Lemma timepoint_slices_nonempty (host : Host) (params : Params)
      (imp : ImagePlus) (t : Z) :
  1 <= getNSlices imp ->
  (forall label_imp_t, pipeline_outcome host params imp t = Labelled label_imp_t ->
                       1 <= getNFrames label_imp_t) ->
  (1 <= List.length (timepoint_slices host params imp t))%nat.
Proof.
  intros Hz Hl. unfold timepoint_slices.
  destruct (pipeline_outcome host params imp t) as [| | | e | lbl];
    try (rewrite blank_slices_length; lia).
  rewrite exported_slices_length. specialize (Hl lbl eq_refl). lia.
Qed.

(** C9 (amended): for a validated file with n_frames >= 1 and
    n_slices >= 1 whose exported label images have at least one frame,
    every timepoint iteration adds at least one slice to the output stack,
    so the stack is not empty after the loop and the zero-slice abort is
    not taken; the file's output is written when, in addition, every
    exported label image has exactly n_slices frames and the file holds
    more than one plane (n_frames * n_slices >= 2). *)
Theorem abort_unreachable (host : Host) (params : Params)
        (input_file : File) (imp : ImagePlus) (st : State) :
  IJ_openImage host (getAbsolutePath input_file) = Ok (Some imp) ->
  channel_in_range params imp = true ->
  1 <= getNSlices imp -> 1 <= getNFrames imp ->
  (forall t label_imp_t,
      1 <= t <= getNFrames imp ->
      pipeline_outcome host params imp t = Labelled label_imp_t ->
      1 <= getNFrames label_imp_t) ->
  (forall t st', 1 <= t <= getNFrames imp ->
     getSize (output_stack st')
     < getSize (output_stack
                  (exec (process_timepoint host params imp (getWidth imp)
                           (getHeight imp) (getNSlices imp) t) st'))) /\
  getSize (output_stack (exec (segment_timepoints host params imp) st)) <> 0 /\
  (exports_match host params imp ->
   2 <= getNFrames imp * getNSlices imp ->
   exists out,
     saved (exec (process_file host params input_file) st)
     = (saved st
        ++ [((output_dir params ++ "/" ++ splitext_root (getName input_file)
                ++ (if append_to_original params
                    then "_with_labels.tif" else "_label_3D.tif"))%string,
             out)])%list).
Proof.
  intros Hopen Hch Hz Ht Hl.
  assert (Hne : forall t, 1 <= t <= getNFrames imp ->
                  (1 <= List.length (timepoint_slices host params imp t))%nat).
  { intros t Hr. apply timepoint_slices_nonempty; [exact Hz|].
    intros lbl E. now apply (Hl t). }
  split; [|split].
  - intros t st' Hr. unfold exec. rewrite process_timepoint_run.
    unfold after_timepoint, getSize. simpl. rewrite length_app.
    specialize (Hne t Hr). lia.
  - rewrite segment_timepoints_stack. unfold label_stack, getSize. simpl.
    rewrite (range_cons 1) by lia. simpl. rewrite length_app.
    specialize (Hne 1 ltac:(lia)). lia.
  - intros Hm Hplanes.
    destruct (process_file_run host params input_file st) as [_ Hsaved].
    rewrite Hsaved, (file_output_processed host params input_file imp)
      by (assumption || lia).
    destruct (output_entry_single params input_file imp
                (label_stack host params imp))
      as (path & out & Hentry & _); try reflexivity.
    { apply channel_in_range_bounds in Hch. lia. }
    destruct (output_entry_shape params input_file imp
                (mkImp "Labels" (label_stack host params imp) 1
                       (getNSlices imp) (getNFrames imp) 1
                       (getCalibration imp))) as [Hnil | [o Ho]].
    + rewrite Hnil in Hentry. discriminate.
    + rewrite Ho. now exists o.
Qed.

Lemma abort_unreachable_witness :
  getSize (output_stack
             (exec (segment_timepoints (host_ok source_1ch) params_append
                                       source_1ch)
                   initial_state)) <> 0 /\
  exists out,
    saved (exec (process_file (host_ok source_1ch) params_append input_cells)
                initial_state)
    = [("/out/cells_with_labels.tif", out)].
Proof.
  destruct (abort_unreachable (host_ok source_1ch) params_append input_cells
              source_1ch initial_state) as (_ & Hsize & Hwritten).
  - reflexivity.
  - reflexivity.
  - vm_compute. discriminate.
  - vm_compute. discriminate.
  - intros t lbl Ht E. three_timepoints t Ht; vm_compute in E;
      injection E as <-; vm_compute; discriminate.
  - split; [exact Hsize|]. apply Hwritten.
    + intros t lbl Ht E. three_timepoints t Ht; vm_compute in E;
        injection E as <-; reflexivity.
    + vm_compute. discriminate.
Defined.

(** ** The sub-volume of a timepoint *)





Lemma getProcessor_setSlice (imp : ImagePlus) (z : Z) :
  getProcessor (setSlice imp z)
  = nth (Z.to_nat (z - 1)) (map snd (st_slices (imp_stack imp))) no_processor.
Proof. reflexivity. Qed.

(** ** C7 *)



(** ** C8 *)

Lemma after_timepoints_successful (host : Host) (params : Params)
      (imp : ImagePlus) (ts : list Z) (st1 st2 : State) :
  successful_timepoints st1 = successful_timepoints st2 ->
  successful_timepoints
    (fold_left (fun s t => after_timepoint host params imp t s) ts st1)
  = successful_timepoints
      (fold_left (fun s t => after_timepoint host params imp t s) ts st2).
Proof.
  revert st1 st2. induction ts as [|t ts IH]; intros st1 st2 H; simpl;
    [exact H|].
  apply IH. simpl. now rewrite H.
Qed.

(** C8: the host being a function of what it is handed, the files a run
    writes are determined by the input files and the parameters.  The
    timepoint loop starts from a fresh output stack and counter, so what
    it leaves does not depend on the state it was entered with; the files
    written for one input file are those it would give when processed
    alone from the initial state; a run writes, in order, each file's own
    output; and two runs started with the same files on disk end with the
    same files (hence the same dimensions and calibration). *)
Theorem run_is_per_file (host : Host) (params : Params) :
  (forall imp st1 st2,
      output_stack (exec (segment_timepoints host params imp) st1)
      = output_stack (exec (segment_timepoints host params imp) st2) /\
      successful_timepoints (exec (segment_timepoints host params imp) st1)
      = successful_timepoints (exec (segment_timepoints host params imp) st2)) /\
  (forall input_file st,
      saved (exec (process_file host params input_file) st)
      = (saved st
         ++ saved (exec (process_file host params input_file) initial_state))%list) /\
  (forall input_files st,
      result (main host params input_files) st = Ok tt /\
      saved (exec (main host params input_files) st)
      = (saved st
         ++ flat_map (fun input_file =>
                        saved (exec (process_file host params input_file)
                                    initial_state))
                     input_files)%list) /\
  (forall input_files st1 st2,
      saved st1 = saved st2 ->
      saved (exec (main host params input_files) st1)
      = saved (exec (main host params input_files) st2)).
Proof.
  assert (Hfile : forall f, saved (exec (process_file host params f)
                                        initial_state)
                            = file_output host params f).
  { intros f. now destruct (process_file_run host params f initial_state)
      as [_ ->]. }
  split; [|split; [|split]].
  - intros imp st1 st2. split.
    + now rewrite !segment_timepoints_stack.
    + unfold exec, segment_timepoints, bind, set_output_stack,
        set_successful_timepoints. simpl. rewrite !timepoints_run. simpl.
      now apply after_timepoints_successful.
  - intros f st. rewrite Hfile.
    now destruct (process_file_run host params f st) as [_ ->].
  - intros fs st. destruct (main_run host params fs st) as [Hr Hs].
    split; [exact Hr|]. rewrite Hs. f_equal.
    apply flat_map_ext. intros f. now rewrite Hfile.
  - intros fs st1 st2 Heq.
    destruct (main_run host params fs st1) as [_ ->].
    destruct (main_run host params fs st2) as [_ ->].
    now rewrite Heq.
Qed.

Lemma run_is_per_file_witness :
  saved (exec (main (host_mixed source_2ch) params_append
                    [input_cells; input_cells])
              initial_state)
  = saved (exec (main (host_mixed source_2ch) params_append
                      [input_cells; input_cells])
                (mkState (ImageStack_new 5 5) 9 [] [source_1ch])).
Proof.
  apply (run_is_per_file (host_mixed source_2ch) params_append).
  reflexivity.
Defined.

(** ** Worked runs *)

Example str_examples : (str 0, str 12, str (-5)) = ("0", "12", "-5").
Proof. reflexivity. Qed.

Example splitext_examples :
  (splitext_root "cells.nd2", splitext_root "a.b.tif", splitext_root ".cshrc",
   splitext_root "noext")
  = ("cells", "a.b", ".cshrc", "noext").
Proof. reflexivity. Qed.

(** A 2-channel, 5-slice, 3-frame source, target channel 1, labels only:
    one file <name>_label_3D.tif, a single-channel 5 x 3 hyperstack. *)
Example label_only_run :
  map (fun '(path, out) =>
         (path, getNChannels out, getNSlices out, getNFrames out,
          getSize (imp_stack out)))
      (saved (exec (main (host_ok (sample_image "cells.nd2" 2 1 2 5 3))
                         params_label_only [input_cells])
                   initial_state))
  = [("/out/cells_label_3D.tif", 1, 5, 3, 15)].
Proof. vm_compute. reflexivity. Qed.

(** The same source with every timepoint failing in [process()], or raising
    in [checkInput()]: 15 slices, the file still written. *)
Example all_fail_run :
  map (fun '(path, out) =>
         (path, getNChannels out, getNSlices out, getNFrames out,
          getSize (imp_stack out)))
      (saved (exec (main (host_process_fails (sample_image "cells.nd2" 2 1 2 5 3))
                         params_label_only [input_cells])
                   initial_state))
  = [("/out/cells_label_3D.tif", 1, 5, 3, 15)].
Proof. vm_compute. reflexivity. Qed.

Example all_raise_run :
  map fst (st_slices (output_stack
                        (exec (segment_timepoints (host_raises source_2ch)
                                 params_label_only source_2ch)
                              initial_state)))
  = ["t1_z1_error"; "t1_z2_error"; "t2_z1_error"; "t2_z2_error";
     "t3_z1_error"; "t3_z2_error"].
Proof. vm_compute. reflexivity. Qed.

(** One timepoint labelled, one failing its input check, one raising. *)
Example mixed_run :
  map fst (st_slices (output_stack
                        (exec (segment_timepoints (host_mixed source_2ch)
                                 params_append source_2ch)
                              initial_state)))
  = ["t1_z1"; "t1_z2"; "t2_z1_empty"; "t2_z2_empty";
     "t3_z1_error"; "t3_z2_error"].
Proof. vm_compute. reflexivity. Qed.

(** * Further properties of the script *)

(** ** The counter of successful timepoints (lines 73, 162, 175) *)

Lemma after_timepoints_count (host : Host) (params : Params)
      (imp : ImagePlus) (ts : list Z) (st : State) :
  successful_timepoints
    (fold_left (fun s t => after_timepoint host params imp t s) ts st)
  = successful_timepoints st
    + Z.of_nat (List.length
                  (filter (fun t => negb (failed (pipeline_outcome host params
                                                                   imp t)))
                          ts)).
Proof.
  revert st. induction ts as [|t ts IH]; intros st; simpl; [lia|].
  rewrite IH. simpl.
  destruct (failed (pipeline_outcome host params imp t)); simpl; lia.
Qed.

Lemma filter_length_le {A : Type} (f : A -> bool) (l : list A) :
  (List.length (filter f l) <= List.length l)%nat.
Proof.
  induction l as [|a l IH]; simpl; [lia|]. destruct (f a); simpl; lia.
Qed.

Lemma filter_none {A : Type} (f : A -> bool) (l : list A) :
  (forall x, In x l -> f x = false) -> filter f l = [].
Proof.
  induction l as [|a l IH]; intros H; simpl; [reflexivity|].
  rewrite (H a) by (now left). apply IH. intros x Hx. apply H. now right.
Qed.

Lemma filter_all {A : Type} (f : A -> bool) (l : list A) :
  (forall x, In x l -> f x = true) -> filter f l = l.
Proof.
  induction l as [|a l IH]; intros H; simpl; [reflexivity|].
  rewrite (H a) by (now left). f_equal. apply IH. intros x Hx. apply H.
  now right.
Qed.

(** After the timepoint loop [successful_timepoints] is the number of
    timepoints in 1..n_frames whose label image was exported; it starts
    from 0 for every file, lies between 0 and n_frames, is 0 when every
    timepoint failed and n_frames when none did. *)
Theorem successful_timepoints_count (host : Host) (params : Params)
        (imp : ImagePlus) (st : State) :
  0 <= getNFrames imp ->
  let n := successful_timepoints
             (exec (segment_timepoints host params imp) st) in
  n = Z.of_nat
        (List.length
           (filter (fun t => negb (failed (pipeline_outcome host params imp t)))
                   (range 1 (getNFrames imp + 1)))) /\
  0 <= n <= getNFrames imp /\
  (all_timepoints_fail host params imp -> n = 0) /\
  ((forall t, 1 <= t <= getNFrames imp ->
              failed (pipeline_outcome host params imp t) = false) ->
   n = getNFrames imp).
Proof.
  intros Hf n.
  assert (Hn : n = Z.of_nat
                     (List.length
                        (filter (fun t => negb (failed (pipeline_outcome host
                                                          params imp t)))
                                (range 1 (getNFrames imp + 1))))).
  { subst n. unfold exec, segment_timepoints, bind, set_output_stack,
      set_successful_timepoints. simpl. rewrite timepoints_run. simpl.
    rewrite after_timepoints_count. simpl. reflexivity. }
  split; [exact Hn|]. split; [|split].
  - rewrite Hn.
    pose proof (filter_length_le
                  (fun t => negb (failed (pipeline_outcome host params imp t)))
                  (range 1 (getNFrames imp + 1))) as Hle.
    rewrite range_length in Hle. lia.
  - intros Hall. rewrite Hn, filter_none; [reflexivity|].
    intros t Ht. apply in_range in Ht. rewrite Hall by lia. reflexivity.
  - intros Hnone. rewrite Hn, filter_all.
    + rewrite range_length. lia.
    + intros t Ht. apply in_range in Ht. rewrite Hnone by lia. reflexivity.
Qed.

Lemma successful_timepoints_count_witness :
  successful_timepoints
    (exec (segment_timepoints (host_mixed source_2ch) params_append source_2ch)
          (mkState (ImageStack_new 5 5) 9 [] []))
  = Z.of_nat
      (List.length
         (filter (fun t => negb (failed (pipeline_outcome (host_mixed source_2ch)
                                           params_append source_2ch t)))
                 (range 1 (getNFrames source_2ch + 1)))).
Proof.
  apply (successful_timepoints_count (host_mixed source_2ch) params_append
           source_2ch (mkState (ImageStack_new 5 5) 9 [] [])).
  vm_compute. discriminate.
Defined.

(** ** A file that cannot be opened (lines 46-49, 260-263) *)

(** When [IJ.openImage] answers null or raises, the file is skipped: the
    whole state is left as it was (nothing written, nothing released, the
    variables untouched) and the run goes on with the next file. *)
Theorem open_failure_skips (host : Host) (params : Params)
        (input_file : File) (rest : list File) (st : State) :
  (IJ_openImage host (getAbsolutePath input_file) = Ok None \/
   exists e, IJ_openImage host (getAbsolutePath input_file) = Raise e) ->
  process_file host params input_file st = (st, Ok tt) /\
  main host params (input_file :: rest) st = main host params rest st.
Proof.
  intros Hopen.
  assert (Hrun : process_file host params input_file st = (st, Ok tt)).
  { unfold process_file, try_except, bind, call.
    destruct Hopen as [-> | [e ->]]; reflexivity. }
  split; [exact Hrun|]. unfold main. simpl. unfold bind. now rewrite Hrun.
Qed.

Lemma open_failure_skips_witness :
  process_file host_cannot_open params_append input_cells initial_state
  = (initial_state, Ok tt) /\
  process_file host_open_raises params_append input_cells initial_state
  = (initial_state, Ok tt).
Proof.
  split.
  - apply (open_failure_skips host_cannot_open params_append input_cells []
                              initial_state).
    left. reflexivity.
  - apply (open_failure_skips host_open_raises params_append input_cells []
                              initial_state).
    right. eexists. reflexivity.
Defined.

(** ** What a timepoint releases (lines 115, 124, 145, 165-173) *)

Lemma fold_setSlice_stack (zs : list Z) (imp : ImagePlus) :
  imp_stack (fold_left setSlice zs imp) = imp_stack imp.
Proof.
  revert imp. induction zs as [|z zs IH]; intros imp; simpl; [reflexivity|].
  now rewrite IH.
Qed.

(** A timepoint never writes a file.  When it fails by a returned value
    (input check, processing, null export) it releases its sub-volume and
    leaves the counter alone; when an exception is caught, the handler
    fills the blanks but the sub-volume is not released; on success the
    relabelled label image and then the sub-volume are released and the
    counter grows by one. *)
Theorem timepoint_release (host : Host) (params : Params) (imp : ImagePlus)
        (t : Z) (st : State) :
  let st' := exec (process_timepoint host params imp (getWidth imp)
                     (getHeight imp) (getNSlices imp) t) st in
  let imp_t := sub_volume params imp (getNSlices imp) t in
  let o := pipeline_outcome host params imp t in
  result (process_timepoint host params imp (getWidth imp) (getHeight imp)
                            (getNSlices imp) t) st = Ok tt /\
  saved st' = saved st /\
  (o = InputCheckFailed \/ o = ProcessingFailed \/ o = NullLabelExport ->
   closed st' = (closed st ++ [imp_t])%list /\
   successful_timepoints st' = successful_timepoints st) /\
  (forall e, o = ExceptionRaised e ->
             closed st' = closed st /\
             successful_timepoints st' = successful_timepoints st) /\
  (forall label_imp_t, o = Labelled label_imp_t ->
     successful_timepoints st' = successful_timepoints st + 1 /\
     exists relabelled,
       closed st' = (closed st ++ [relabelled; imp_t])%list /\
       imp_stack relabelled = imp_stack label_imp_t).
Proof.
  intros st' imp_t o. subst st'. unfold exec, result.
  rewrite process_timepoint_run. unfold after_timepoint, timepoint_closed.
  fold o. fold imp_t. cbn [fst snd saved closed successful_timepoints].
  split; [reflexivity|]. split; [reflexivity|]. split; [|split].
  - intros [-> | [-> | ->]]; simpl; split; (reflexivity || lia).
  - intros e ->. simpl. rewrite app_nil_r. split; [reflexivity | lia].
  - intros lbl ->. simpl. split; [reflexivity|].
    eexists. split; [reflexivity|].
    exact (fold_setSlice_stack _ (frames_to_slices lbl)).
Qed.

Lemma timepoint_release_witness :
  closed (exec (process_timepoint (host_mixed source_2ch) params_append
                  source_2ch (getWidth source_2ch) (getHeight source_2ch)
                  (getNSlices source_2ch) 3) initial_state)
  = closed initial_state /\
  successful_timepoints
    (exec (process_timepoint (host_mixed source_2ch) params_append
             source_2ch (getWidth source_2ch) (getHeight source_2ch)
             (getNSlices source_2ch) 3) initial_state)
  = successful_timepoints initial_state.
Proof.
  apply (timepoint_release (host_mixed source_2ch) params_append source_2ch 3
                           initial_state) with (e := "java.lang.RuntimeException").
  vm_compute. reflexivity.
Defined.

(** ** A stack that cannot be reshaped (lines 177-192, 260-263) *)

(** When the loop leaves a stack that is not empty and does not hold
    n_slices * n_frames slices, the reshape raises, the file-level handler
    swallows it, and the file ends in the state the loop left: nothing is
    written and the source image is not released; the run continues. *)
Theorem reshape_failure_skips (host : Host) (params : Params)
        (input_file : File) (rest : list File) (imp : ImagePlus) (st : State) :
  IJ_openImage host (getAbsolutePath input_file) = Ok (Some imp) ->
  channel_in_range params imp = true ->
  getSize (output_stack (exec (segment_timepoints host params imp) st)) <> 0 ->
  getSize (output_stack (exec (segment_timepoints host params imp) st))
  <> getNSlices imp * getNFrames imp ->
  process_file host params input_file st
  = (exec (segment_timepoints host params imp) st, Ok tt) /\
  main host params (input_file :: rest) st
  = main host params rest (exec (segment_timepoints host params imp) st).
Proof.
  intros Hopen Hch H0 Hne.
  assert (Hrun : process_file host params input_file st
                 = (exec (segment_timepoints host params imp) st, Ok tt)).
  { unfold exec in *. unfold process_file, try_except, bind, call.
    rewrite Hopen. unfold channel_in_range in Hch.
    apply negb_true_iff in Hch. rewrite Hch.
    destruct (segment_timepoints_run host params imp st)
      as [st' [Hseg _]].
    rewrite Hseg in *. simpl in *.
    unfold compose_output, bind, call.
    destruct (Z.eqb_spec (getSize (output_stack st')) 0); [contradiction|].
    unfold label_hyperstack, toHyperStack, ImagePlus_new. cbn [imp_stack].
    destruct (getSize (output_stack st') =? 1); [reflexivity|].
    destruct (Z.eqb_spec (1 * getNSlices imp * getNFrames imp)
                         (getSize (output_stack st'))); [lia | reflexivity]. }
  split; [exact Hrun|]. unfold main. simpl. unfold bind. now rewrite Hrun.
Qed.

Lemma reshape_failure_skips_witness :
  process_file (host_one_frame source_2ch) params_label_only input_cells
               initial_state
  = (exec (segment_timepoints (host_one_frame source_2ch) params_label_only
                              source_2ch) initial_state, Ok tt).
Proof.
  apply (reshape_failure_skips (host_one_frame source_2ch) params_label_only
           input_cells [] source_2ch initial_state).
  - reflexivity.
  - reflexivity.
  - vm_compute. discriminate.
  - vm_compute. discriminate.
Defined.

(** ** What the output step releases (lines 203-256) *)

Lemma write_output_run (params : Params) (input_file : File)
      (imp label_imp : ImagePlus) (st : State) :
  write_output params input_file imp label_imp st
  = if append_to_original params then
      match mergeChannels (merge_inputs imp label_imp) false with
      | Some merged_imp =>
          let out := setCalibration
                       (setTitle merged_imp
                          (splitext_root (getName input_file) ++ "_with_labels"))
                       (getCalibration imp) in
          (mkState (output_stack st) (successful_timepoints st)
                   (saved st ++ [(merged_path params input_file, out)])%list
                   (closed st
                    ++ (if getNChannels imp =? 1 then []
                        else removelast (channel_list imp label_imp))
                    ++ [out; label_imp; imp])%list,
           Ok tt)
      | None =>
          (st, Raise "AttributeError: 'NoneType' object has no attribute 'setTitle'")
      end
    else
      (mkState (output_stack st) (successful_timepoints st)
               (saved st ++ [(label_path params input_file, label_imp)])%list
               (closed st ++ [label_imp; imp])%list,
       Ok tt).
Proof.
  unfold write_output, merge_inputs, merged_path, label_path.
  cbv zeta. unfold bind.
  destruct (append_to_original params).
  - destruct (getNChannels imp =? 1).
    + rewrite save_merged_run.
      destruct (mergeChannels _ _); [|reflexivity].
      cbv beta iota zeta. unfold close.
      cbn [output_stack successful_timepoints saved closed].
      rewrite <- !app_assoc. reflexivity.
    + rewrite save_merged_run.
      destruct (mergeChannels _ _); [|reflexivity].
      cbv beta iota zeta. rewrite for_each_close. unfold close.
      cbn [output_stack successful_timepoints saved closed].
      rewrite <- !app_assoc. reflexivity.
  - unfold IJ_save, close.
    cbn [output_stack successful_timepoints saved closed].
    rewrite <- !app_assoc. reflexivity.
Qed.

(** When the output step writes its file it releases every image it
    made, then the label hyperstack, then the source: nothing in label-only
    mode, the merged image for a one-channel source, every channel
    duplicate and the merged image otherwise.  When the channel merge
    answers null the step raises before anything is written or released. *)
Theorem write_output_release (params : Params) (input_file : File)
        (imp label_imp : ImagePlus) (st : State) :
  let st' := exec (write_output params input_file imp label_imp) st in
  let r := result (write_output params input_file imp label_imp) st in
  (append_to_original params = false ->
   r = Ok tt /\ closed st' = (closed st ++ [label_imp; imp])%list) /\
  (forall merged_imp,
     append_to_original params = true ->
     mergeChannels (merge_inputs imp label_imp) false = Some merged_imp ->
     let out := setCalibration
                  (setTitle merged_imp
                     (splitext_root (getName input_file) ++ "_with_labels"))
                  (getCalibration imp) in
     r = Ok tt /\
     closed st'
     = (closed st
        ++ (if getNChannels imp =? 1 then []
            else map (fun c => Duplicator_run imp c c 1 (getNSlices imp) 1
                                              (getNFrames imp))
                     (range 1 (getNChannels imp + 1)))
        ++ [out; label_imp; imp])%list) /\
  (append_to_original params = true ->
   mergeChannels (merge_inputs imp label_imp) false = None ->
   st' = st /\ exists e, r = Raise e).
Proof.
  intros st' r. subst st' r. unfold exec, result. rewrite write_output_run.
  split; [|split].
  - intros ->. split; reflexivity.
  - intros m -> ->. cbv zeta. simpl. split; [reflexivity|].
    unfold channel_list. now rewrite removelast_last.
  - intros -> ->. simpl. split; [reflexivity | eexists; reflexivity].
Qed.

Lemma write_output_release_witness :
  result (write_output params_label_only input_cells source_2ch
                       (sample_labels 2 1 6 0)) initial_state = Ok tt /\
  closed (exec (write_output params_label_only input_cells source_2ch
                             (sample_labels 2 1 6 0)) initial_state)
  = (closed initial_state ++ [sample_labels 2 1 6 0; source_2ch])%list.
Proof.
  apply (write_output_release params_label_only input_cells source_2ch
                              (sample_labels 2 1 6 0) initial_state).
  reflexivity.
Defined.

(** ** The files a run writes (lines 199-201, 216, 240, 250) *)

Lemma file_output_shape (host : Host) (params : Params) (input_file : File) :
  file_output host params input_file = [] \/
  exists out,
    file_output host params input_file
    = [((output_dir params ++ "/" ++ splitext_root (getName input_file)
           ++ (if append_to_original params
               then "_with_labels.tif" else "_label_3D.tif"))%string, out)].
Proof.
  unfold file_output, composed_files.
  destruct (IJ_openImage host _) as [[imp|]|e]; try (now left).
  destruct (channel_in_range params imp); [|now left].
  destruct (getSize _ =? 0); [now left|].
  destruct (label_hyperstack imp _); [|now left].
  apply output_entry_shape.
Qed.

(** A run writes at most one file per input file, in the order of the
    input files, after the files written before: what it writes is, file
    by file, what each input file gives when processed alone; and one
    input file adds nothing or exactly one file, which lies in the output
    directory and is named after that input file without its extension,
    ending in _with_labels.tif in append mode and in _label_3D.tif
    otherwise. *)
Theorem outputs_named (host : Host) (params : Params)
        (input_files : list File) (st : State) :
  saved (exec (main host params input_files) st)
  = (saved st
     ++ flat_map (fun input_file =>
                    saved (exec (process_file host params input_file)
                                initial_state))
                 input_files)%list /\
  forall input_file st',
    saved (exec (process_file host params input_file) st') = saved st' \/
    exists out,
      saved (exec (process_file host params input_file) st')
      = (saved st'
         ++ [((output_dir params ++ "/" ++ splitext_root (getName input_file)
                 ++ (if append_to_original params
                     then "_with_labels.tif" else "_label_3D.tif"))%string,
              out)])%list.
Proof.
  split.
  - destruct (main_run host params input_files st) as [_ ->]. f_equal.
    apply flat_map_ext. intros f.
    now destruct (process_file_run host params f initial_state) as [_ ->].
  - intros f st'.
    destruct (process_file_run host params f st') as [_ ->].
    destruct (file_output_shape host params f) as [-> | [out ->]].
    + left. apply app_nil_r.
    + right. now exists out.
Qed.

Lemma outputs_named_witness :
  map fst (saved (exec (main (host_ok source_2ch) params_label_only
                             [input_cells; input_other]) initial_state))
  = ["/out/cells_label_3D.tif"; "/out/other_label_3D.tif"].
Proof.
  destruct (outputs_named (host_ok source_2ch) params_label_only
              [input_cells; input_other] initial_state) as [Hsaved _].
  rewrite Hsaved. vm_compute. reflexivity.
Defined.

(** ** Where each slice lands (lines 76, 117-119, 157-160, 185-192) *)

Lemma nth_error_flat_map_const {A B : Type} (f : A -> list B) (l : list A)
      (k i j : nat) (x : A) :
  (forall y, In y l -> List.length (f y) = k) ->
  nth_error l i = Some x -> (j < k)%nat ->
  nth_error (flat_map f l) (i * k + j) = nth_error (f x) j.
Proof.
  revert i. induction l as [|a l IH]; intros i Hk Hi Hj.
  - destruct i; discriminate.
  - simpl. pose proof (Hk a (or_introl eq_refl)) as Ha.
    destruct i as [|i]; simpl in *.
    + injection Hi as <-. apply nth_error_app1. lia.
    + rewrite nth_error_app2 by lia.
      replace (k + i * k + j - List.length (f a))%nat with (i * k + j)%nat
        by lia.
      apply IH; [|exact Hi | exact Hj]. intros y Hy. apply Hk. now right.
Qed.

Lemma exported_slices_nth (t : Z) (label_imp_t : ImagePlus) (z : Z) :
  1 <= z <= getNFrames label_imp_t ->
  nth_error (exported_slices t label_imp_t) (Z.to_nat (z - 1))
  = Some ("t" ++ str t ++ "_z" ++ str z,
          getProcessor (setSlice label_imp_t z)).
Proof.
  intros Hz. unfold exported_slices.
  rewrite nth_error_map, range_nth_error by lia. cbn [option_map].
  replace (1 + Z.of_nat (Z.to_nat (z - 1))) with z by lia. reflexivity.
Qed.

(** When every export has n_slices frames, the slice of timepoint t and
    z-slice z sits at position (t - 1) * n_slices + (z - 1) of the output
    stack, whatever happened at the other timepoints: tagged t<t>_z<z>
    with the label plane z of the export on success, tagged with the
    fallback suffix and blank on failure; and it is plane (1, z, t) of the
    label hyperstack. *)
Theorem slice_position (host : Host) (params : Params) (imp : ImagePlus)
        (st : State) (t z : Z) :
  exports_match host params imp ->
  1 <= t <= getNFrames imp -> 1 <= z <= getNSlices imp ->
  let stack := output_stack (exec (segment_timepoints host params imp) st) in
  let o := pipeline_outcome host params imp t in
  exists label ip,
    nth_error (st_slices stack)
              (Z.to_nat ((t - 1) * getNSlices imp + (z - 1)))
    = Some (label, ip) /\
    (forall label_imp_t,
        o = Labelled label_imp_t ->
        label = ("t" ++ str t ++ "_z" ++ str z)%string /\
        ip = getProcessor (setSlice label_imp_t z)) /\
    (failed o = true ->
     label = ("t" ++ str t ++ "_z" ++ str z ++ fallback_suffix o)%string /\
     ip = blank_processor (getWidth imp) (getHeight imp) 16) /\
    (forall label_imp,
        label_hyperstack imp stack = Ok label_imp ->
        plane_at label_imp 1 z t = Some (label, ip)).
Proof.
  intros Hm Ht Hz stack o.
  assert (Hstack : stack = label_stack host params imp)
    by apply segment_timepoints_stack.
  assert (Hnth : nth_error (st_slices stack)
                   (Z.to_nat ((t - 1) * getNSlices imp + (z - 1)))
                 = nth_error (timepoint_slices host params imp t)
                             (Z.to_nat (z - 1))).
  { rewrite Hstack. unfold label_stack. cbn [st_slices].
    replace (Z.to_nat ((t - 1) * getNSlices imp + (z - 1)))
      with (Z.to_nat (t - 1) * Z.to_nat (getNSlices imp)
            + Z.to_nat (z - 1))%nat by nia.
    apply nth_error_flat_map_const.
    - intros y Hy. apply in_range in Hy.
      apply timepoint_slices_length; [lia | exact Hm].
    - rewrite range_nth_error by lia. f_equal. lia.
    - lia. }
  assert (Hplane : forall entry,
             nth_error (st_slices stack)
               (Z.to_nat ((t - 1) * getNSlices imp + (z - 1))) = Some entry ->
             forall label_imp,
               label_hyperstack imp stack = Ok label_imp ->
               plane_at label_imp 1 z t = Some entry).
  { intros entry He label_imp Hl.
    apply label_hyperstack_inv in Hl as [-> _].
    unfold plane_at, stack_index. cbn [nSlices nChannels imp_stack].
    replace ((t - 1) * getNSlices imp * 1 + (z - 1) * 1 + (1 - 1))
      with ((t - 1) * getNSlices imp + (z - 1)) by lia.
    destruct (Z.ltb_spec ((t - 1) * getNSlices imp + (z - 1)) 0); [nia|].
    exact He. }
  unfold timepoint_slices in Hnth. fold o in Hnth.
  destruct o as [| | | e | lbl] eqn:Eo.
  1-4: rewrite blank_slices_nth in Hnth by lia;
       replace (Z.of_nat (Z.to_nat (z - 1)) + 1) with z in Hnth by lia;
       do 2 eexists; split; [exact Hnth|];
       split; [discriminate|]; split; [auto|]; apply Hplane; exact Hnth.
  rewrite exported_slices_nth in Hnth
    by (rewrite (Hm t lbl Ht Eo); exact Hz).
  do 2 eexists. split; [exact Hnth|]. split.
  - intros l' H. injection H as <-. split; reflexivity.
  - split; [discriminate|]. apply Hplane. exact Hnth.
Qed.

Lemma slice_position_witness :
  exists label ip,
    nth_error (st_slices
                 (output_stack
                    (exec (segment_timepoints (host_mixed source_2ch)
                             params_append source_2ch) initial_state)))
              (Z.to_nat ((3 - 1) * getNSlices source_2ch + (2 - 1)))
    = Some (label, ip) /\
    label = "t3_z2_error".
Proof.
  destruct (slice_position (host_mixed source_2ch) params_append source_2ch
              initial_state 3 2)
    as (label & ip & Hnth & _ & Hfail & _).
  - intros t lbl Ht E. three_timepoints t Ht; vm_compute in E;
      try discriminate; injection E as <-; reflexivity.
  - vm_compute. split; discriminate.
  - vm_compute. split; discriminate.
  - exists label, ip. split; [exact Hnth|].
    destruct Hfail as [Hl _]; [vm_compute; reflexivity|]. exact Hl.
Defined.

(** ** The planes of an export (lines 153-160) *)

(** On a successful timepoint every plane the exported label image holds
    among its frames 1..n_label_frames is copied unchanged, in order, to
    the end of the output stack; its own slice label is replaced by the
    tag t<t>_z<z>. *)
Theorem exported_planes_copied (host : Host) (params : Params)
        (imp : ImagePlus) (t : Z) (label_imp_t : ImagePlus) (st : State)
        (z : Z) (name : string) (ip : ImageProcessor) :
  pipeline_outcome host params imp t = Labelled label_imp_t ->
  1 <= z <= getNFrames label_imp_t ->
  nth_error (st_slices (imp_stack label_imp_t)) (Z.to_nat (z - 1))
  = Some (name, ip) ->
  nth_error
    (st_slices (output_stack
                  (exec (process_timepoint host params imp (getWidth imp)
                           (getHeight imp) (getNSlices imp) t) st)))
    (List.length (st_slices (output_stack st)) + Z.to_nat (z - 1))
  = Some ("t" ++ str t ++ "_z" ++ str z, ip).
Proof.
  intros E Hz Hplane. unfold exec. rewrite process_timepoint_run.
  unfold after_timepoint, timepoint_slices, append_slices. rewrite E.
  cbn [fst output_stack st_slices].
  rewrite nth_error_app2 by lia.
  replace (List.length (st_slices (output_stack st)) + Z.to_nat (z - 1)
           - List.length (st_slices (output_stack st)))%nat
    with (Z.to_nat (z - 1)) by lia.
  rewrite exported_slices_nth by exact Hz.
  rewrite getProcessor_setSlice. do 2 f_equal.
  apply nth_error_nth. now rewrite nth_error_map, Hplane.
Qed.

Lemma exported_planes_copied_witness :
  nth_error
    (st_slices (output_stack
                  (exec (process_timepoint (host_ok source_2ch) params_append
                           source_2ch (getWidth source_2ch)
                           (getHeight source_2ch) (getNSlices source_2ch) 2)
                        initial_state)))
    (List.length (st_slices (output_stack initial_state)) + Z.to_nat (2 - 1))
  = Some ("t" ++ str 2 ++ "_z" ++ str 2, mkIP 2 1 16 [7; 7]).
Proof.
  apply (exported_planes_copied (host_ok source_2ch) params_append source_2ch
           2 (sample_labels 2 1 2 7) initial_state 2 "").
  - vm_compute. reflexivity.
  - vm_compute. split; discriminate.
  - vm_compute. reflexivity.
Defined.

(** ** The name of the output file (lines 199-201) *)

Lemma rfind_from_absent (i : Z) (c : ascii) (s : string) :
  ~ In c (list_ascii_of_string s) -> rfind_from i c s = -1.
Proof.
  revert i. induction s as [|a s IH]; intros i Hnot; simpl; [reflexivity|].
  simpl in Hnot. rewrite IH by tauto. simpl.
  destruct (Ascii.eqb_spec a c) as [-> |]; [|reflexivity].
  exfalso. apply Hnot. now left.
Qed.

Lemma rfind_from_lower (i : Z) (c : ascii) (s : string) :
  0 <= i -> -1 <= rfind_from i c s.
Proof.
  revert i. induction s as [|a s IH]; intros i Hi; simpl; [lia|].
  specialize (IH (i + 1) ltac:(lia)).
  destruct (Z.leb_spec 0 (rfind_from (i + 1) c s)); [lia|].
  destruct (Ascii.eqb a c); lia.
Qed.

Lemma rfind_from_last (i : Z) (c : ascii) (s1 s2 : string) :
  0 <= i -> ~ In c (list_ascii_of_string s2) ->
  rfind_from i c (s1 ++ String c s2) = i + Z.of_nat (String.length s1).
Proof.
  revert i. induction s1 as [|a s1 IH]; intros i Hi Hnot.
  - simpl. rewrite rfind_from_absent by exact Hnot. simpl.
    rewrite Ascii.eqb_refl. lia.
  - cbn [append rfind_from String.length].
    rewrite IH by (lia || exact Hnot).
    destruct (Z.leb_spec 0 (i + 1 + Z.of_nat (String.length s1))); lia.
Qed.

Lemma list_ascii_app (s1 s2 : string) :
  list_ascii_of_string (s1 ++ s2)
  = (list_ascii_of_string s1 ++ list_ascii_of_string s2)%list.
Proof.
  induction s1 as [|a s1 IH]; simpl; [reflexivity | now rewrite IH].
Qed.

Lemma get_some_lt (s : string) (n : nat) (a : ascii) :
  String.get n s = Some a -> (n < String.length s)%nat.
Proof.
  revert n. induction s as [|b s IH]; intros n H; simpl in *; [discriminate|].
  destruct n as [|n]; [lia|]. apply IH in H. lia.
Qed.

Lemma get_lt_some (s : string) (n : nat) :
  (n < String.length s)%nat -> exists a, String.get n s = Some a.
Proof.
  revert n. induction s as [|b s IH]; intros n H; simpl in *; [lia|].
  destruct n as [|n]; [eexists; reflexivity|]. apply IH. lia.
Qed.

Lemma substring_prefix (s1 s2 : string) :
  String.substring 0 (String.length s1) (s1 ++ s2) = s1.
Proof.
  induction s1 as [|a s1 IH]; simpl.
  - destruct s2; reflexivity.
  - now rewrite IH.
Qed.

(** The output name keeps the input name up to its last dot: for a file
    name [base.ext] without path separators whose stem has a character
    other than a dot, the stem is [base], so the outputs are
    [base_label_3D.tif] and [base_with_labels.tif]; a name whose only dots
    lead it (a dot-file) and a name without any dot are kept whole. *)
Theorem output_name_stem (base ext : string) :
  ~ In "/"%char (list_ascii_of_string base) ->
  ~ In "/"%char (list_ascii_of_string ext) ->
  ~ In "."%char (list_ascii_of_string ext) ->
  ((exists i a, String.get i base = Some a /\ a <> "."%char) ->
   splitext_root (base ++ "." ++ ext) = base /\
   forall params dir,
     label_path params (mkFile dir (base ++ "." ++ ext))
     = (output_dir params ++ "/" ++ base ++ "_label_3D.tif")%string /\
     merged_path params (mkFile dir (base ++ "." ++ ext))
     = (output_dir params ++ "/" ++ base ++ "_with_labels.tif")%string) /\
  ((forall i a, String.get i base = Some a -> a = "."%char) ->
   splitext_root (base ++ "." ++ ext) = (base ++ "." ++ ext)%string) /\
  splitext_root ext = ext.
Proof.
  intros Hbase Hext Hdot.
  assert (Hsep : rfind "/"%char (base ++ "." ++ ext) = -1).
  { apply rfind_from_absent. rewrite list_ascii_app. simpl.
    intros H. apply in_app_or in H. destruct H as [H | [H | H]];
      [tauto | discriminate | tauto]. }
  assert (Hlast : rfind "."%char (base ++ "." ++ ext)
                  = Z.of_nat (String.length base)).
  { unfold rfind. change (base ++ "." ++ ext)%string
      with (base ++ String "."%char ext)%string.
    rewrite rfind_from_last by (lia || exact Hdot). lia. }
  split; [|split].
  - intros (i & a & Hget & Hne).
    assert (Hstem : splitext_root (base ++ "." ++ ext) = base).
    { unfold splitext_root. rewrite Hsep, Hlast.
      destruct (Z.ltb_spec (-1) (Z.of_nat (String.length base))); [|lia].
      replace (existsb _ _) with true.
      - unfold prefix_to. rewrite Nat2Z.id. apply substring_prefix.
      - symmetry. apply existsb_exists. exists (Z.of_nat i). split.
        + apply in_range. apply get_some_lt in Hget. lia.
        + unfold char_at. destruct (Z.ltb_spec (Z.of_nat i) 0); [lia|].
          rewrite Nat2Z.id, <- append_correct1
            by (now apply get_some_lt in Hget).
          rewrite Hget. destruct (Ascii.eqb_spec a "."%char);
            [contradiction | reflexivity]. }
    split; [exact Hstem|]. intros params dir.
    unfold label_path, merged_path, getName. cbn [file_name].
    rewrite Hstem. split; reflexivity.
  - intros Hall. unfold splitext_root. rewrite Hsep, Hlast.
    destruct (Z.ltb_spec (-1) (Z.of_nat (String.length base))); [|reflexivity].
    replace (existsb _ _) with false; [reflexivity|].
    symmetry. apply not_true_is_false. intros Hex.
    apply existsb_exists in Hex. destruct Hex as (x & Hx & Hf).
    apply in_range in Hx. unfold char_at in Hf.
    destruct (Z.ltb_spec x 0); [discriminate|].
    destruct (get_lt_some base (Z.to_nat x) ltac:(lia)) as [a Ha].
    rewrite <- append_correct1 in Hf by lia. rewrite Ha in Hf.
    rewrite (Hall _ _ Ha) in Hf. discriminate.
  - unfold splitext_root.
    assert (Hd : rfind "."%char ext = -1) by (now apply rfind_from_absent).
    rewrite Hd.
    pose proof (rfind_from_lower 0 "/"%char ext ltac:(lia)) as Hl.
    unfold rfind.
    destruct (Z.ltb_spec (rfind_from 0 "/"%char ext) (-1)); [lia | reflexivity].
Qed.

Lemma output_name_stem_witness :
  splitext_root ("a.b" ++ "." ++ "tif") = "a.b" /\
  splitext_root ("" ++ "." ++ "cshrc") = ("" ++ "." ++ "cshrc")%string.
Proof.
  split.
  - apply (output_name_stem "a.b" "tif").
    + vm_compute. intuition discriminate.
    + vm_compute. intuition discriminate.
    + vm_compute. intuition discriminate.
    + exists 0%nat, "a"%char. split; [reflexivity | discriminate].
  - apply (output_name_stem "" "cshrc").
    + vm_compute. intuition discriminate.
    + vm_compute. intuition discriminate.
    + vm_compute. intuition discriminate.
    + intros i a H. destruct i; discriminate.
Defined.

(** ** The planes of the merged image (lines 207-233) *)









Example merged_planes_run :
  let out := snd (hd ("", source_2ch)
                     (output_entry params_append input_cells source_2ch
                        (setDimensions (sample_labels 2 1 6 7) 1 2 3))) in
  (option_map (fun p => ip_pixels (snd p)) (plane_at out 2 1 3),
   option_map (fun p => ip_pixels (snd p)) (plane_at out 3 2 3))
  = (Some [312; 312], Some [7; 7]).
Proof. vm_compute. reflexivity. Qed.

(** A source of a single plane: the one slice is accumulated, the reshape
    refuses the one-plane stack, and nothing is written. *)
Example single_plane_run :
  (getSize (output_stack
              (exec (segment_timepoints (host_ok source_single)
                       params_label_only source_single) initial_state)),
   saved (exec (main (host_ok source_single) params_label_only [input_cells])
               initial_state))
  = (1, []).
Proof. vm_compute. reflexivity. Qed.
